(** * CoAlign: belief hooks, concept mapping, concept layer and log reader

    A shallow embedding of

    - [habitat_llm/planner/belief_hooks.py]  ([BeliefMetrics],
      [get_divergence], [choose_belief_action]),
    - [habitat_llm/perception/concept_mapping.py]
      ([map_detection_to_concepts]),
    - [scripts/visualize_belief_divergence.py] ([_iter_json_records],
      [_extract_metric], [_average_concept_confidence], [_prepare_series],
      [main]),
    - the concept-annotation operation of the world graph (its source is
      [habitat_llm/world_model/world_graph.py]; only its test is at hand),

    together with the properties the specification states about them.

    Python values are embedded as they are at run time: a configuration
    is a [dict] from option names to arbitrary values, floats are IEEE
    binary64 numbers (Rocq's primitive floats), integers are unbounded,
    text is held as its UTF-8 bytes, and an operation that raises yields
    [Raise]. *)

From Stdlib Require Import ZArith QArith Qround String Ascii Floats DecimalString.
From stdpp Require Import gmap strings list fin_maps.

Set Warnings "-inexact-float,-register-all,-clear-no-such-hyp".

Open Scope Z_scope.

(** ** Python values and exceptions *)

Module Py.

Inductive PyExn := TypeError | ValueError | OverflowError.

(** The outcome of evaluating a Python expression. *)
Inductive result (A : Type) : Type :=
| Ok (a : A)
| Raise (e : PyExn).
Arguments Ok {A} a.
Arguments Raise {A} e.

#[export] Instance result_ret : MRet result := fun _ a => Ok a.
#[export] Instance result_bind : MBind result := fun _ _ k r =>
  match r with Ok a => k a | Raise e => Raise e end.

Definition is_ok {A} (r : result A) : bool :=
  match r with Ok _ => true | Raise _ => false end.

(** The values a configuration option can hold. *)
Inductive PyVal :=
| VNone
| VBool (b : bool)
| VInt (z : Z)
| VFloat (f : float)
| VStr (s : string).

(** A number as the annotation [float] admits it ([int] or [float]). *)
Inductive PyNum :=
| NInt (z : Z)
| NFloat (f : float).

(** [bool(v)]: what [not v] and [v and ...] test. *)
Definition truthy (v : PyVal) : bool :=
  match v with
  | VNone => false
  | VBool b => b
  | VInt z => negb (z =? 0)
  | VFloat f => negb (PrimFloat.eqb f 0)
  | VStr s => negb (String.eqb s "")
  end.

(** [v == s] for a string literal [s]. *)
Definition eq_str (v : PyVal) (s : string) : bool :=
  match v with VStr t => String.eqb t s | _ => false end.

(** [d.get(key, default)]. *)
Definition dict_get {V} (d : gmap string V) (key : string) (dflt : V) : V :=
  default dflt (d !! key).

(** [key in d] and [d[key]] for a [dict] whose keys are strings; a key of
    another type is hashable but equal to no string. *)
Definition dict_lookup {V} (d : gmap string V) (key : PyVal) : option V :=
  match key with VStr s => d !! s | _ => None end.

(** [bool(d)] for a [dict]: empty is false. *)
Definition dict_truthy {V} (d : gmap string V) : bool :=
  negb (bool_decide (d = ∅)).

(** *** Floats *)

(** [float(z)] for an [int]: round to nearest, ties to even; an [int]
    beyond the largest double raises [OverflowError]. *)
Definition float_of_int (z : Z) : result float :=
  match z with
  | Z0 => Ok 0%float
  | Zpos p | Zneg p =>
      match binary_normalize prec emax (Z.pos p) 0 false with
      | S754_finite _ m e => Ok (SF2Prim (S754_finite (z <? 0) m e))
      | _ => Raise OverflowError
      end
  end.

(** [float(n)]. *)
Definition py_float (n : PyNum) : result float :=
  match n with
  | NInt z => float_of_int z
  | NFloat f => Ok f
  end.

(** The exact comparison of a float with an [int], as Python's mixed
    comparison does it without converting; [None] when the float is a
    NaN. *)
Definition float_compare_int (x : float) (z : Z) : option comparison :=
  match Prim2SF x with
  | S754_nan => None
  | S754_infinity s => Some (if s then Lt else Gt)
  | S754_zero _ => Some (0 ?= z)
  | S754_finite s m e =>
      let n := if s then Z.neg m else Z.pos m in
      Some (if 0 <=? e then n * 2 ^ e ?= z else n ?= z * 2 ^ (- e))
  end.

Definition bool_to_Z (b : bool) : Z := if b then 1 else 0.

(** [x >= v] for a float [x]. *)
Definition float_ge (x : float) (v : PyVal) : result bool :=
  match v with
  | VFloat y => Ok (PrimFloat.leb y x)
  | VInt z =>
      Ok (match float_compare_int x z with Some (Gt | Eq) => true | _ => false end)
  | VBool b =>
      Ok (match float_compare_int x (bool_to_Z b) with
          | Some (Gt | Eq) => true | _ => false end)
  | VNone | VStr _ => Raise TypeError
  end.

(** [x < v] for a float [x]. *)
Definition float_lt (x : float) (v : PyVal) : result bool :=
  match v with
  | VFloat y => Ok (PrimFloat.ltb x y)
  | VInt z =>
      Ok (match float_compare_int x z with Some Lt => true | _ => false end)
  | VBool b =>
      Ok (match float_compare_int x (bool_to_Z b) with
          | Some Lt => true | _ => false end)
  | VNone | VStr _ => Raise TypeError
  end.

(** [v * c] for a float literal [c]. *)
Definition mul_float (v : PyVal) (c : float) : result float :=
  match v with
  | VFloat x => Ok (x * c)%float
  | VInt z => x ← float_of_int z; Ok (x * c)%float
  | VBool b => x ← float_of_int (bool_to_Z b); Ok (x * c)%float
  | VNone | VStr _ => Raise TypeError
  end.

(** *** Formatting *)

Definition digit_char (d : Z) : ascii := ascii_of_N (Z.to_N (48 + d)).

(** [str(z)] for an [int]. *)
Definition int_str (z : Z) : string := NilZero.string_of_int (Z.to_int z).

(** The integer nearest to [n / d], ties to even ([0 <= n], [0 < d]). *)
Definition round_half_even (n d : Z) : Z :=
  let q := n / d in
  match 2 * (n mod d) ?= d with
  | Lt => q
  | Gt => q + 1
  | Eq => if Z.even q then q else q + 1
  end.

(** The number of hundredths nearest to [m * 2^e]. *)
Definition hundredths (m : positive) (e : Z) : Z :=
  if 0 <=? e then Z.pos m * 2 ^ e * 100
  else round_half_even (Z.pos m * 100) (2 ^ (- e)).

(** [h / 100] written with two decimals. *)
Definition fixed2 (h : Z) : string :=
  int_str (h / 100) +:+ "." +:+
  String (digit_char (h mod 100 / 10)) (String (digit_char (h mod 10)) "").

Definition sign_str (s : bool) : string := if s then "-" else "".

(** [format(x, ".2f")] for a float: the exact binary value rounded to two
    decimals, ties to even. *)
Definition float_format_2f (x : float) : string :=
  match Prim2SF x with
  | S754_nan => "nan"
  | S754_infinity s => sign_str s +:+ "inf"
  | S754_zero s => sign_str s +:+ "0.00"
  | S754_finite s m e => sign_str s +:+ fixed2 (hundredths m e)
  end.

(** [repr(x)], which is also [str(x)], for a float: the shortest decimal
    that reads back as [x] (the one nearest to [x] when several do),
    written in positional notation when its decimal point falls within
    [-4 < decpt <= 16] and in exponent notation otherwise. *)

Definition pow10Q (k : Z) : Q :=
  if 0 <=? k then inject_Z (10 ^ k) else 1 # Z.to_pos (10 ^ (- k)).

Definition pow2Q (k : Z) : Q :=
  if 0 <=? k then inject_Z (2 ^ k) else 1 # Z.to_pos (2 ^ (- k)).

(** The largest [p] from [p0] upwards with [10^(p+1)] still at most [x],
    at most [fuel] steps up. *)
Fixpoint log10_floor (fuel : nat) (p0 : Z) (x : Q) : Z :=
  match fuel with
  | O => p0
  | S fuel' =>
      if Qle_bool (pow10Q (p0 + 1)) x then log10_floor fuel' (p0 + 1) x else p0
  end.

(** A lower estimate of the decimal exponent of [x], from the binary
    lengths of its numerator and denominator (at most three below). *)
Definition log10_below (x : Q) : Z :=
  (Z.log2 (Qnum x) - Z.log2 (Z.pos (Qden x)) - 1) * 30103 / 100000 - 1.

(** Does [v] read back as the float whose rounding interval is
    [lo .. hi]?  The end points belong to it when the mantissa is even. *)
Definition reads_back (even_mantissa : bool) (lo hi v : Q) : bool :=
  if even_mantissa then Qle_bool lo v && Qle_bool v hi
  else negb (Qle_bool v lo) && negb (Qle_bool hi v).

(** The decimal [c * 10^k] of [nd] digits nearest to [x] among those that
    read back as [x], if there is one. *)
Definition candidate (even_mantissa : bool) (lo hi x : Q) (p : Z) (nd : nat)
  : option (Z * Z) :=
  let k := p - Z.of_nat nd + 1 in
  let c := Qfloor (x / pow10Q k) in
  let v1 := (inject_Z c * pow10Q k)%Q in
  let v2 := (inject_Z (c + 1) * pow10Q k)%Q in
  match reads_back even_mantissa lo hi v1, reads_back even_mantissa lo hi v2 with
  | true, true =>
      match (x - v1 ?= v2 - x)%Q with
      | Lt => Some (c, k)
      | Gt => Some (c + 1, k)
      | Eq => Some (if Z.even c then c else c + 1, k)
      end
  | true, false => Some (c, k)
  | false, true => Some (c + 1, k)
  | false, false => None
  end.

Fixpoint shortest (even_mantissa : bool) (lo hi x : Q) (p : Z) (nd fuel : nat)
  : Z * Z :=
  match fuel with
  | O => (Qfloor (x / pow10Q (p - Z.of_nat nd + 1)), p - Z.of_nat nd + 1)
  | S fuel' =>
      match candidate even_mantissa lo hi x p nd with
      | Some r => r
      | None => shortest even_mantissa lo hi x p (S nd) fuel'
      end
  end.

(** Drop the trailing zeros of [c], counting them into the exponent. *)
Fixpoint strip_zeros (fuel : nat) (c k : Z) : Z * Z :=
  match fuel with
  | O => (c, k)
  | S fuel' =>
      if (c mod 10 =? 0) && negb (c =? 0) then strip_zeros fuel' (c / 10) (k + 1)
      else (c, k)
  end.

Fixpoint zeros (n : nat) : string :=
  match n with O => "" | S n' => String "0" (zeros n') end.

Definition string_take (n : nat) (s : string) : string := substring 0 n s.
Definition string_drop (n : nat) (s : string) : string :=
  substring n (String.length s - n) s.

(** The digits [ds] with the decimal point [decpt] places after their
    start, as [repr] lays them out. *)
Definition repr_layout (ds : string) (decpt : Z) : string :=
  let nd := String.length ds in
  if (decpt <=? -4) || (16 <? decpt) then
    let ex := decpt - 1 in
    let exs := int_str (Z.abs ex) in
    string_take 1 ds +:+
    (if Nat.ltb 1 nd then "." +:+ string_drop 1 ds else "") +:+
    "e" +:+ (if ex <? 0 then "-" else "+") +:+
    (if Nat.ltb (String.length exs) 2 then "0" else "") +:+ exs
  else if decpt <=? 0 then
    "0." +:+ zeros (Z.to_nat (- decpt)) +:+ ds
  else if Z.of_nat nd <=? decpt then
    ds +:+ zeros (Z.to_nat decpt - nd) +:+ ".0"
  else
    string_take (Z.to_nat decpt) ds +:+ "." +:+ string_drop (Z.to_nat decpt) ds.

Definition float_repr (x : float) : string :=
  match Prim2SF x with
  | S754_nan => "nan"
  | S754_infinity s => sign_str s +:+ "inf"
  | S754_zero s => sign_str s +:+ "0.0"
  | S754_finite s m e =>
      let v := (inject_Z (Z.pos m) * pow2Q e)%Q in
      let hi := (inject_Z (2 * Z.pos m + 1) * pow2Q (e - 1))%Q in
      let lo :=
        if (Z.pos m =? 2 ^ 52) && (-1074 <? e)
        then (inject_Z (4 * Z.pos m - 1) * pow2Q (e - 2))%Q
        else (inject_Z (2 * Z.pos m - 1) * pow2Q (e - 1))%Q in
      let p := log10_floor 8 (log10_below v) v in
      let '(c, k) := shortest (Z.even (Z.pos m)) lo hi v p 1 17 in
      let '(c, k) := strip_zeros 17 c k in
      let ds := int_str c in
      sign_str s +:+ repr_layout ds (k + Z.of_nat (String.length ds))
  end.

(** [str(v)], which is what an f-string field without a format
    specification inserts. *)
Definition py_str (v : PyVal) : string :=
  match v with
  | VNone => "None"
  | VBool b => if b then "True" else "False"
  | VInt z => int_str z
  | VFloat f => float_repr f
  | VStr s => s
  end.

(** [format(v, ".2f")]: an [int] (and a [bool]) is converted to a float
    first; other values do not take the format. *)
Definition format_2f (v : PyVal) : result string :=
  match v with
  | VFloat x => Ok (float_format_2f x)
  | VInt z => x ← float_of_int z; Ok (float_format_2f x)
  | VBool b => x ← float_of_int (bool_to_Z b); Ok (float_format_2f x)
  | VNone => Raise TypeError
  | VStr _ => Raise ValueError
  end.


(** *** What a reason shows *)

(** [part] occurs in [whole]. *)
Definition mentions (part whole : string) : Prop :=
  ∃ pre post, whole = pre +:+ part +:+ post.

(** A number written with exactly two decimals. *)
Definition two_decimals (s : string) : Prop :=
  ∃ front d1 d2,
    s = front +:+ "." +:+ String (digit_char d1) (String (digit_char d2) "") ∧
    0 ≤ d1 ≤ 9 ∧ 0 ≤ d2 ≤ 9.

(** Neither a NaN nor an infinity. *)
Definition float_is_finite (x : float) : bool :=
  match Prim2SF x with
  | S754_nan | S754_infinity _ => false
  | S754_zero _ | S754_finite _ _ _ => true
  end.

End Py.

Import Py.

(** ** [habitat_llm/planner/belief_hooks.py] *)

Module BeliefHooks.

(** The [BeliefMetrics] dataclass. *)
Record BeliefMetrics := {
  avg_concept_confidence : float;
  belief_divergence : float;
  divergence_metrics : option (gmap string PyNum);
  note : string
}.

(** The dataclass defaults: [BeliefMetrics()]. *)
Definition default_metrics : BeliefMetrics :=
  {| avg_concept_confidence := 1.0;
     belief_divergence := 0.0;
     divergence_metrics := None;
     note := "" |}.

(** [self.divergence_metrics and metric_type in self.divergence_metrics]:
    [None] and the empty [dict] are false. *)
Definition has_metric (self : BeliefMetrics) (metric_type : PyVal) : option PyNum :=
  match divergence_metrics self with
  | None => None
  | Some dm => if dict_truthy dm then dict_lookup dm metric_type else None
  end.

(** [BeliefMetrics.get_divergence]. *)
Definition get_divergence (self : BeliefMetrics) (metric_type : PyVal) : result float :=
  if eq_str metric_type "belief_divergence" then
    Ok (belief_divergence self)
  else
    match has_metric self metric_type with
    | Some v => py_float v
    | None => Ok (belief_divergence self)
    end.

(** The f-strings of the four reasons. *)
Definition correction_reason (metric_type active threshold : string) : string :=
  "Belief divergence (" +:+ metric_type +:+ ") " +:+ active +:+
  " exceeds correction threshold " +:+ threshold +:+ ".".

Definition low_confidence_reason (confidence threshold : string) : string :=
  "Average concept confidence " +:+ confidence +:+ " is below threshold " +:+
  threshold +:+ ".".

Definition l2d_reason (metric_type active threshold : string) : string :=
  "Divergence (" +:+ metric_type +:+ ") " +:+ active +:+
  " exceeds L2D threshold " +:+ threshold +:+ ".".

Definition high_divergence_reason (metric_type active threshold : string) : string :=
  "Belief divergence (" +:+ metric_type +:+ ") " +:+ active +:+
  " exceeds threshold " +:+ threshold +:+ ".".

(** The options as [choose_belief_action] reads them, each with the
    default it passes to [get]. The defaults of the two derived thresholds
    are computed before the lookup, being arguments of [get]; the product
    raises when [divergence_threshold] holds no number. *)
Definition divergence_metric_type (decision_conf : gmap string PyVal) : PyVal :=
  dict_get decision_conf "divergence_metric_type" (VStr "belief_divergence").

Definition div_threshold (decision_conf : gmap string PyVal) : PyVal :=
  dict_get decision_conf "divergence_threshold" (VFloat 0.3).

Definition correction_threshold (decision_conf : gmap string PyVal) : result PyVal :=
  dflt ← mul_float (div_threshold decision_conf) 1.5;
  Ok (dict_get decision_conf "correction_divergence_threshold" (VFloat dflt)).

Definition confidence_threshold (decision_conf : gmap string PyVal) : PyVal :=
  dict_get decision_conf "concept_confidence_threshold" (VFloat 0.5).

Definition l2d_threshold (decision_conf : gmap string PyVal) : result PyVal :=
  dflt ← mul_float (div_threshold decision_conf) 0.5;
  Ok (dict_get decision_conf "l2d_divergence_threshold" (VFloat dflt)).

Definition l2d_enabled (decision_conf : gmap string PyVal) : PyVal :=
  dict_get decision_conf "l2d_action_enabled" (VBool false).

Definition correction_action (decision_conf : gmap string PyVal) : PyVal :=
  dict_get decision_conf "correction_action" (VStr "CorrectHuman").

Definition low_confidence_action (decision_conf : gmap string PyVal) : PyVal :=
  dict_get decision_conf "low_confidence_action" (VStr "AppendObservation").

Definition l2d_action (decision_conf : gmap string PyVal) : PyVal :=
  dict_get decision_conf "l2d_action" (VStr "LookToDisambiguate").

Definition high_divergence_action (decision_conf : gmap string PyVal) : PyVal :=
  dict_get decision_conf "high_divergence_action" (VStr "AskHuman").

(** [l2d_enabled and active_divergence >= l2d_threshold], used as a
    condition: the comparison is evaluated only when [l2d_enabled] is
    true. *)
Definition l2d_guard (enabled : PyVal) (active_divergence : float)
    (threshold : PyVal) : result bool :=
  if truthy enabled then float_ge active_divergence threshold else Ok false.

(** The part of [choose_belief_action] after the two early returns, for a
    configuration that is a mapping. *)
Definition choose_enabled (decision_conf : gmap string PyVal)
    (metrics : BeliefMetrics) : result (PyVal * string) :=
  let metric_type := divergence_metric_type decision_conf in
  active_divergence ← get_divergence metrics metric_type;
  correction ← correction_threshold decision_conf;
  l2d ← l2d_threshold decision_conf;
  c1 ← float_ge active_divergence correction;
  if c1 : bool then
    t ← format_2f correction;
    Ok (correction_action decision_conf,
        correction_reason (py_str metric_type) (float_format_2f active_divergence) t)
  else
  c2 ← float_lt (avg_concept_confidence metrics) (confidence_threshold decision_conf);
  if c2 : bool then
    t ← format_2f (confidence_threshold decision_conf);
    Ok (low_confidence_action decision_conf,
        low_confidence_reason (float_format_2f (avg_concept_confidence metrics)) t)
  else
  c3 ← l2d_guard (l2d_enabled decision_conf) active_divergence l2d;
  if c3 : bool then
    t ← format_2f l2d;
    Ok (l2d_action decision_conf,
        l2d_reason (py_str metric_type) (float_format_2f active_divergence) t)
  else
  c4 ← float_ge active_divergence (div_threshold decision_conf);
  if c4 : bool then
    t ← format_2f (div_threshold decision_conf);
    Ok (high_divergence_action decision_conf,
        high_divergence_reason (py_str metric_type) (float_format_2f active_divergence) t)
  else
    Ok (VNone, note metrics).

(** [choose_belief_action]; [decision_conf] is [None] or a mapping. *)
Definition choose_belief_action (decision_conf : option (gmap string PyVal))
    (metrics : BeliefMetrics) : result (PyVal * string) :=
  match decision_conf with
  | None => Ok (VNone, "")
  | Some conf =>
      if negb (truthy (dict_get conf "cbwm_enabled" (VBool true))) then
        Ok (VNone, "CBWM hooks disabled.")
      else choose_enabled conf metrics
  end.

(** The return statements of [choose_belief_action], in the order of the
    source. *)
Inductive Branch :=
| Absent | Disabled | Correction | LowConfidence | L2D | HighDivergence | NoAction.

(** [returns_at conf metrics b out]: the call returns [out] from the
    return statement [b]. One rule per return statement, with the
    conditions under which control reaches it. *)
Inductive returns_at : option (gmap string PyVal) → BeliefMetrics →
    Branch → PyVal * string → Prop :=
| ret_absent metrics :
    returns_at None metrics Absent (VNone, "")
| ret_disabled conf metrics :
    truthy (dict_get conf "cbwm_enabled" (VBool true)) = false →
    returns_at (Some conf) metrics Disabled (VNone, "CBWM hooks disabled.")
| ret_correction conf metrics active correction l2d t :
    truthy (dict_get conf "cbwm_enabled" (VBool true)) = true →
    get_divergence metrics (divergence_metric_type conf) = Ok active →
    correction_threshold conf = Ok correction →
    l2d_threshold conf = Ok l2d →
    float_ge active correction = Ok true →
    format_2f correction = Ok t →
    returns_at (Some conf) metrics Correction
      (correction_action conf,
       correction_reason (py_str (divergence_metric_type conf))
         (float_format_2f active) t)
| ret_low_confidence conf metrics active correction l2d t :
    truthy (dict_get conf "cbwm_enabled" (VBool true)) = true →
    get_divergence metrics (divergence_metric_type conf) = Ok active →
    correction_threshold conf = Ok correction →
    l2d_threshold conf = Ok l2d →
    float_ge active correction = Ok false →
    float_lt (avg_concept_confidence metrics) (confidence_threshold conf) = Ok true →
    format_2f (confidence_threshold conf) = Ok t →
    returns_at (Some conf) metrics LowConfidence
      (low_confidence_action conf,
       low_confidence_reason (float_format_2f (avg_concept_confidence metrics)) t)
| ret_l2d conf metrics active correction l2d t :
    truthy (dict_get conf "cbwm_enabled" (VBool true)) = true →
    get_divergence metrics (divergence_metric_type conf) = Ok active →
    correction_threshold conf = Ok correction →
    l2d_threshold conf = Ok l2d →
    float_ge active correction = Ok false →
    float_lt (avg_concept_confidence metrics) (confidence_threshold conf) = Ok false →
    l2d_guard (l2d_enabled conf) active l2d = Ok true →
    format_2f l2d = Ok t →
    returns_at (Some conf) metrics L2D
      (l2d_action conf,
       l2d_reason (py_str (divergence_metric_type conf)) (float_format_2f active) t)
| ret_high_divergence conf metrics active correction l2d t :
    truthy (dict_get conf "cbwm_enabled" (VBool true)) = true →
    get_divergence metrics (divergence_metric_type conf) = Ok active →
    correction_threshold conf = Ok correction →
    l2d_threshold conf = Ok l2d →
    float_ge active correction = Ok false →
    float_lt (avg_concept_confidence metrics) (confidence_threshold conf) = Ok false →
    l2d_guard (l2d_enabled conf) active l2d = Ok false →
    float_ge active (div_threshold conf) = Ok true →
    format_2f (div_threshold conf) = Ok t →
    returns_at (Some conf) metrics HighDivergence
      (high_divergence_action conf,
       high_divergence_reason (py_str (divergence_metric_type conf))
         (float_format_2f active) t)
| ret_no_action conf metrics active correction l2d :
    truthy (dict_get conf "cbwm_enabled" (VBool true)) = true →
    get_divergence metrics (divergence_metric_type conf) = Ok active →
    correction_threshold conf = Ok correction →
    l2d_threshold conf = Ok l2d →
    float_ge active correction = Ok false →
    float_lt (avg_concept_confidence metrics) (confidence_threshold conf) = Ok false →
    l2d_guard (l2d_enabled conf) active l2d = Ok false →
    float_ge active (div_threshold conf) = Ok false →
    returns_at (Some conf) metrics NoAction (VNone, note metrics).

(** [compares conf metrics name value threshold]: the comparison that
    lets an action branch fire, with the metric it names, the value of
    the metric and the threshold it is compared with. *)
Inductive compares (conf : gmap string PyVal) (metrics : BeliefMetrics) :
    Branch → string → float → PyVal → Prop :=
| cmp_correction active threshold :
    get_divergence metrics (divergence_metric_type conf) = Ok active →
    correction_threshold conf = Ok threshold →
    float_ge active threshold = Ok true →
    compares conf metrics Correction
      (py_str (divergence_metric_type conf)) active threshold
| cmp_low_confidence :
    float_lt (avg_concept_confidence metrics) (confidence_threshold conf) = Ok true →
    compares conf metrics LowConfidence
      "Average concept confidence" (avg_concept_confidence metrics)
      (confidence_threshold conf)
| cmp_l2d active threshold :
    get_divergence metrics (divergence_metric_type conf) = Ok active →
    l2d_threshold conf = Ok threshold →
    l2d_guard (l2d_enabled conf) active threshold = Ok true →
    compares conf metrics L2D
      (py_str (divergence_metric_type conf)) active threshold
| cmp_high_divergence active :
    get_divergence metrics (divergence_metric_type conf) = Ok active →
    float_ge active (div_threshold conf) = Ok true →
    compares conf metrics HighDivergence
      (py_str (divergence_metric_type conf)) active (div_threshold conf).

(** The options [choose_belief_action] reads. *)
Definition option_names : list string :=
  [ "cbwm_enabled"; "divergence_metric_type"; "divergence_threshold";
    "correction_divergence_threshold"; "concept_confidence_threshold";
    "l2d_divergence_threshold"; "l2d_action_enabled"; "correction_action";
    "low_confidence_action"; "l2d_action"; "high_divergence_action" ].

(** The decision table of the specification (section 4.4, step 4) over
    resolved thresholds: the rules in priority order, each a condition and
    the action it yields. *)
Definition spec_rules (conf : gmap string PyVal) (confidence active : float)
    (correction confidence_thr l2d div : float) (l2d_on : bool)
  : list (bool * PyVal) :=
  [ (PrimFloat.leb correction active, correction_action conf);
    (PrimFloat.ltb confidence confidence_thr, low_confidence_action conf);
    (l2d_on && PrimFloat.leb l2d active, l2d_action conf);
    (PrimFloat.leb div active, high_divergence_action conf) ].

(** The first rule whose condition holds wins. *)
Definition first_match {A} (rules : list (bool * A)) : option A :=
  snd <$> head (filter (λ r, fst r = true) rules).

(** The present threshold options hold floats, as the configuration
    documents them. *)
Definition threshold_names : list string :=
  [ "divergence_threshold"; "correction_divergence_threshold";
    "concept_confidence_threshold"; "l2d_divergence_threshold" ].

Definition thresholds_are_floats (conf : gmap string PyVal) : Prop :=
  ∀ key v, key ∈ threshold_names → conf !! key = Some v → ∃ f, v = VFloat f.

(** *** Inputs of the examples *)

(** A snapshot whose named metrics give "belief_divergence" another
    value than the scalar field, and one more metric. *)
Definition conflicting_metrics : BeliefMetrics :=
  {| avg_concept_confidence := 0.9;
     belief_divergence := 0.2;
     divergence_metrics :=
       Some (<["belief_divergence" := NFloat 0.7]>
               (<["concept_js_divergence" := NInt 1]> ∅));
     note := "" |}.

(** The snapshots of section 8 of the specification. *)
Definition confident_divergent : BeliefMetrics :=
  {| avg_concept_confidence := 0.9; belief_divergence := 0.9;
     divergence_metrics := None; note := "steady" |}.

Definition unsure_aligned : BeliefMetrics :=
  {| avg_concept_confidence := 0.4; belief_divergence := 0.0;
     divergence_metrics := None; note := "steady" |}.

Definition confident_drifting : BeliefMetrics :=
  {| avg_concept_confidence := 0.9; belief_divergence := 0.2;
     divergence_metrics := None; note := "steady" |}.

Definition confident_warning : BeliefMetrics :=
  {| avg_concept_confidence := 0.9; belief_divergence := 0.35;
     divergence_metrics := None; note := "steady" |}.

(** Configurations: all defaults, L2D switched on, and the hooks switched
    off by the integer zero. *)
Definition default_conf : gmap string PyVal := ∅.

Definition l2d_conf : gmap string PyVal := {["l2d_action_enabled" := VBool true]}.

Definition zero_conf : gmap string PyVal := {["cbwm_enabled" := VInt 0]}.

Definition off_conf : gmap string PyVal := {["cbwm_enabled" := VBool false]}.

(** [l2d_conf] with one more option, which the hook does not read. *)
Definition l2d_conf_extra : gmap string PyVal :=
  <["planner_name" := VStr "llm"]> l2d_conf.

(** The documented defaults of the configuration (section 6 of the
    specification), written from its table: the default of each option,
    those of the two derived thresholds being 1.5 times and 0.5 times the
    divergence threshold in force, a float. An option that the table
    does not list has none. *)
Definition documented_default (conf : gmap string PyVal) (key : string)
  : option PyVal :=
  if String.eqb key "cbwm_enabled" then Some (VBool true)
  else if String.eqb key "divergence_metric_type" then
    Some (VStr "belief_divergence")
  else if String.eqb key "divergence_threshold" then Some (VFloat 0.3)
  else if String.eqb key "correction_divergence_threshold" then
    match dict_get conf "divergence_threshold" (VFloat 0.3) with
    | VFloat d => Some (VFloat (d * 1.5))
    | _ => None
    end
  else if String.eqb key "concept_confidence_threshold" then Some (VFloat 0.5)
  else if String.eqb key "l2d_divergence_threshold" then
    match dict_get conf "divergence_threshold" (VFloat 0.3) with
    | VFloat d => Some (VFloat (d * 0.5))
    | _ => None
    end
  else if String.eqb key "l2d_action_enabled" then Some (VBool false)
  else if String.eqb key "correction_action" then Some (VStr "CorrectHuman")
  else if String.eqb key "low_confidence_action" then
    Some (VStr "AppendObservation")
  else if String.eqb key "l2d_action" then Some (VStr "LookToDisambiguate")
  else if String.eqb key "high_divergence_action" then Some (VStr "AskHuman")
  else None.

(** The decision of section 4.4 of the specification with every option
    at its documented default, over the divergence threshold [d] and the
    L2D switch [on]: the metric is the scalar "belief_divergence", the
    thresholds are [d * 1.5], 0.5, [d * 0.5] and [d], and the actions
    have their documented names. *)
Definition default_decision (d : float) (on : bool) (metrics : BeliefMetrics)
  : PyVal * string :=
  let active := belief_divergence metrics in
  if PrimFloat.leb (d * 1.5) active then
    (VStr "CorrectHuman",
     correction_reason "belief_divergence" (float_format_2f active)
       (float_format_2f (d * 1.5)))
  else if PrimFloat.ltb (avg_concept_confidence metrics) 0.5 then
    (VStr "AppendObservation",
     low_confidence_reason (float_format_2f (avg_concept_confidence metrics))
       (float_format_2f 0.5))
  else if on && PrimFloat.leb (d * 0.5) active then
    (VStr "LookToDisambiguate",
     l2d_reason "belief_divergence" (float_format_2f active)
       (float_format_2f (d * 0.5)))
  else if PrimFloat.leb d active then
    (VStr "AskHuman",
     high_divergence_reason "belief_divergence" (float_format_2f active)
       (float_format_2f d))
  else (VNone, note metrics).

(** A configuration that sets the divergence threshold and the L2D
    switch, and nothing else. *)
Definition base_conf (d : float) (on : bool) : gmap string PyVal :=
  <["divergence_threshold" := VFloat d]> {["l2d_action_enabled" := VBool on]}.

End BeliefHooks.

(** ** [habitat_llm/perception/concept_mapping.py] *)

Module ConceptMapping.

(** Modelled from the spec: the class [MetadataInterface] of
    [habitat_llm/sims/metadata_interface.py], of which the mapper reads
    the attribute [lexicon] only, a collection of category names tested
    with [in]. *)
Record MetadataInterface := { lexicon : list string }.

(** [map_detection_to_concepts]. *)
Definition map_detection_to_concepts (detected_type : option string)
    (metadata : option MetadataInterface) : list string * list float :=
  match detected_type with
  | None => ([], [])
  | Some detected =>
      let labels := [detected] in
      let confidences := [1.0%float] in
      match metadata with
      | Some md =>
          if negb (bool_decide (detected ∈ lexicon md))
          then (labels ++ ["unknown"], confidences ++ [0.1%float])
          else (labels, confidences)
      | None => (labels, confidences)
      end
  end.

End ConceptMapping.

(** ** The concept layer of the world graph *)

Module WorldGraph.

(** Modelled from the spec: the world graph of
    [habitat_llm/world_model/world_graph.py] and its operation
    [add_or_update_concept_annotation], which are not among the sources;
    section 4.2 of the specification and the test
    [test_add_or_update_concept_annotation] describe them. A node is an
    entity, known by its name, or a concept node; [graph] is the
    adjacency mapping the test reads ([wg.graph[concept_node][obj]]), and
    [properties] holds the [properties] mapping of every entity, which
    the operation mutates in place. *)
Inductive Node :=
| EntityNode (name : string)
| ConceptNode (id : nat).

#[export] Instance Node_eq_dec : EqDecision Node.
Proof. solve_decision. Defined.

#[export] Instance Node_countable : Countable Node.
Proof.
  refine (inj_countable'
    (λ n, match n with EntityNode s => inl s | ConceptNode i => inr i end)
    (λ x, match x with inl s => EntityNode s | inr i => ConceptNode i end) _).
  by intros [].
Defined.

(** Modelled from the spec: the values of the [properties] mapping of an
    entity of [habitat_llm/world_model/entity.py]: a string such as the
    type, the concept labels, or the concept confidences. *)
Inductive PropVal :=
| PStr (s : string)
| PLabels (labels : list string)
| PConfidences (confidences : list float).

(** Modelled from the spec: the state of the class [WorldGraph], as far
    as the concept layer reads and writes it. *)
Record WorldGraph := {
  graph : gmap Node (gmap Node string);
  properties : gmap string (gmap string PropVal)
}.

(** [WorldGraph()]. *)
Definition empty_graph : WorldGraph := {| graph := ∅; properties := ∅ |}.

(** Modelled from the spec: [wg.add_node(obj)] of the test, which enters
    the entity with the properties it was built with and no edge. *)
Definition add_node (wg : WorldGraph) (name : string)
    (props : gmap string PropVal) : WorldGraph :=
  {| graph :=
       match graph wg !! EntityNode name with
       | Some _ => graph wg
       | None => <[EntityNode name := ∅]> (graph wg)
       end;
     properties := <[name := props]> (properties wg) |}.

(** [wg.graph[src][dst]]. *)
Definition edge (wg : WorldGraph) (src dst : Node) : option string :=
  graph wg !! src ≫= (.!! dst).

Definition is_concept (n : Node) : bool :=
  match n with ConceptNode _ => true | EntityNode _ => false end.

(** [c] is a concept node with an edge labelled "describes" to the
    entity. *)
Definition describes (wg : WorldGraph) (entity : string) (c : Node) : bool :=
  is_concept c && bool_decide (edge wg c (EntityNode entity) = Some "describes").

(** The concept nodes of an entity. *)
Definition concept_nodes_of (wg : WorldGraph) (entity : string) : gset Node :=
  filter (λ c, describes wg entity c = true) (dom (graph wg)).

Definition find_concept (wg : WorldGraph) (entity : string) : option Node :=
  head (elements (concept_nodes_of wg entity)).

Definition concept_ids (wg : WorldGraph) : gset nat :=
  set_omap (λ n, match n with ConceptNode i => Some i | EntityNode _ => None end)
    (dom (graph wg)).

(** A concept node that is not in the graph yet. *)
Definition fresh_concept (wg : WorldGraph) : Node :=
  ConceptNode (fresh (concept_ids wg)).

(** Modelled from the spec: [add_or_update_concept_annotation] (section
    4.2). It sets the two properties of the entity, replacing what was
    there; it reuses the concept node of the entity if there is one and
    otherwise creates one with a "describes" edge to the entity; it
    returns the concept node. *)
Definition add_or_update_concept_annotation (wg : WorldGraph) (entity : string)
    (labels : list string) (confidences : list float) : WorldGraph * Node :=
  let props :=
    <["concept_confidence" := PConfidences confidences]>
      (<["concept_labels" := PLabels labels]>
         (default ∅ (properties wg !! entity))) in
  let properties' := <[entity := props]> (properties wg) in
  match find_concept wg entity with
  | Some c => ({| graph := graph wg; properties := properties' |}, c)
  | None =>
      let c := fresh_concept wg in
      ({| graph := <[c := {[EntityNode entity := "describes"]}]> (graph wg);
          properties := properties' |}, c)
  end.

(** The stored annotation of an entity. *)
Definition property (wg : WorldGraph) (entity key : string) : option PropVal :=
  properties wg !! entity ≫= (.!! key).

(** Modelled from the spec: an annotated entity is one whose properties
    hold concept labels (section 3, Entity). *)
Definition annotated (wg : WorldGraph) (entity : string) : Prop :=
  is_Some (property wg entity "concept_labels").

(** No entity has two concept nodes. *)
Definition unique_concepts (wg : WorldGraph) : Prop :=
  ∀ entity c1 c2,
    c1 ∈ concept_nodes_of wg entity → c2 ∈ concept_nodes_of wg entity → c1 = c2.

(** A concept node has one edge, a "describes" edge to an entity. *)
Definition single_describes_edge (wg : WorldGraph) : Prop :=
  ∀ id adj, graph wg !! ConceptNode id = Some adj →
            ∃ entity, adj = {[EntityNode entity := "describes"]}.

(** Every annotated entity has a concept node. *)
Definition annotated_described (wg : WorldGraph) : Prop :=
  ∀ entity, annotated wg entity → ∃ c, c ∈ concept_nodes_of wg entity.

(** Modelled from the spec: the invariant of the concept layer (section
    3, ConceptNode): exactly one concept node per annotated entity, with
    a single edge, labelled "describes", to the entity. *)
Definition well_formed (wg : WorldGraph) : Prop :=
  unique_concepts wg ∧ single_describes_edge wg ∧ annotated_described wg.

(** Modelled from the spec: the world graphs that the planning loop
    builds: entities enter without an annotation and are annotated by
    the operation. *)
Inductive built : WorldGraph → Prop :=
| built_empty : built empty_graph
| built_add_node wg name props :
    built wg → props !! "concept_labels" = None →
    built (add_node wg name props)
| built_annotation wg entity labels confidences :
    built wg →
    built (add_or_update_concept_annotation wg entity labels confidences).1.

(** The graph of the test: one object, not annotated yet. *)
Definition test_graph : WorldGraph :=
  add_node empty_graph "obj" {["type" := PStr "mug"]}.

(** The graph of the test next to a second object that is annotated
    already. *)
Definition shared_graph : WorldGraph :=
  add_node
    (add_or_update_concept_annotation
       (add_node empty_graph "table" {["type" := PStr "table"]})
       "table" ["table"] [0.7%float]).1
    "obj" {["type" := PStr "mug"]}.

End WorldGraph.

(** ** [scripts/visualize_belief_divergence.py]: the log reader *)

Module Visualize.

(** A decoded JSON document; an object keeps its members in order. *)
Inductive Json :=
| JNull
| JBool (b : bool)
| JInt (z : Z)
| JFloat (f : float)
| JStr (s : string)
| JList (items : list Json)
| JDict (members : list (string * Json)).

(** [str.isspace] on a character of one byte: tab to carriage return, the
    four separators, and the space. *)
Definition is_space (c : ascii) : bool :=
  let n := nat_of_ascii c in
  (Nat.leb 9 n && Nat.leb n 13) || (Nat.leb 28 n && Nat.leb n 32).

(** A line is held as the UTF-8 bytes of its text.  [str.isspace] also holds
    of these characters of two bytes, U+0085 and U+00A0 (C2 85, C2 A0), *)
Definition is_space2 (c1 c2 : ascii) : bool :=
  let n := nat_of_ascii c2 in
  Nat.eqb (nat_of_ascii c1) 194 && (Nat.eqb n 133 || Nat.eqb n 160).

(** and of these of three bytes: U+1680 (E1 9A 80), U+2000 to U+200A, U+2028,
    U+2029 and U+202F (E2 80 80 to 8A, A8, A9, AF), U+205F (E2 81 9F) and
    U+3000 (E3 80 80). *)
Definition is_space3 (c1 c2 c3 : ascii) : bool :=
  let n1 := nat_of_ascii c1 in
  let n2 := nat_of_ascii c2 in
  let n3 := nat_of_ascii c3 in
  (Nat.eqb n1 225 && Nat.eqb n2 154 && Nat.eqb n3 128)
  || (Nat.eqb n1 226 && Nat.eqb n2 128
      && ((Nat.leb 128 n3 && Nat.leb n3 138)
          || Nat.eqb n3 168 || Nat.eqb n3 169 || Nat.eqb n3 175))
  || (Nat.eqb n1 226 && Nat.eqb n2 129 && Nat.eqb n3 159)
  || (Nat.eqb n1 227 && Nat.eqb n2 128 && Nat.eqb n3 128).

(** [line.lstrip()]: the white-space characters at the start are dropped. *)
Fixpoint lstrip (s : string) : string :=
  match s with
  | String c1 s1 =>
      if is_space c1 then lstrip s1
      else
        match s1 with
        | String c2 s2 =>
            if is_space2 c1 c2 then lstrip s2
            else
              match s2 with
              | String c3 s3 => if is_space3 c1 c2 c3 then lstrip s3 else s
              | EmptyString => s
              end
        | EmptyString => s
        end
  | EmptyString => EmptyString
  end.

(** [line.rstrip()]: the text is cut where the rest is white space only. *)
Fixpoint rstrip (s : string) : string :=
  match s with
  | String c s' =>
      if String.eqb (lstrip s) EmptyString then EmptyString
      else String c (rstrip s')
  | EmptyString => EmptyString
  end.

(** [line.strip()]. *)
Definition strip (s : string) : string := rstrip (lstrip s).

(** An open text file: its lines, each with its terminator, as iteration
    hands them out, and the number of lines already read. *)
Record FileObj := { lines : list string; pos : nat }.

(** [path.open("r")]. *)
Definition open (path : list string) : FileObj := {| lines := path; pos := 0 |}.

(** One step of [for line in f]. *)
Definition next_line (f : FileObj) : option (string * FileObj) :=
  match lines f !! pos f with
  | Some line => Some (line, {| lines := lines f; pos := S (pos f) |})
  | None => None
  end.

(** [f.seek(0)]. *)
Definition seek0 (f : FileObj) : FileObj := {| lines := lines f; pos := 0%nat |}.

(** [f.read()]: the text from the current position; the file is then at
    its end, and so is the iteration over its lines, which reads from
    the position of the file. *)
Definition read (f : FileObj) : string * FileObj :=
  (String.concat "" (drop (pos f) (lines f)),
   {| lines := lines f; pos := length (lines f) |}).

(** What the whole-file retry yields from the decoded document: the
    objects of a list, or the document itself when it is an object. *)
Definition is_dict (v : Json) : bool :=
  match v with JDict _ => true | _ => false end.

Definition records_of_payload (payload : Json) : list Json :=
  match payload with
  | JList items => filter (λ item, is_dict item = true) items
  | JDict _ => [payload]
  | _ => []
  end.

Section reader.

(** [json.loads] of the Python library; [None] stands for
    [JSONDecodeError]. *)
Variable json_loads : string → option Json.

(** [json.load(f)]: decode what [f.read()] returns. *)
Definition json_load (f : FileObj) : option Json * FileObj :=
  let '(text, f) := read f in (json_loads text, f).

(** The loop [for line in f] of [_iter_json_records], with the records it
    yields; [fuel] bounds the number of iterations. *)
Fixpoint read_records (fuel : nat) (f : FileObj) : list Json :=
  match fuel with
  | O => []
  | S fuel' =>
      match next_line f with
      | None => []
      | Some (line, f) =>
          let line := strip line in
          if String.eqb line "" then read_records fuel' f
          else
            match json_loads line with
            | Some record => record :: read_records fuel' f
            | None =>
                let f := seek0 f in
                let '(payload, f) := json_load f in
                match payload with
                | Some payload => records_of_payload payload
                | None => read_records fuel' f
                end
            end
      end
  end.

(** [_iter_json_records], as the list of what the generator yields. Every
    iteration reads a line or leaves the file at its end, so one more
    iteration than there are lines ends the loop. *)
Definition _iter_json_records (paths : list (list string)) : list Json :=
  flat_map (λ path, read_records (S (length path)) (open path)) paths.

(** The outcome of [main], for the files [_collect_files] found. *)
Inductive Outcome :=
| FileNotFoundError
| ValueError (files : nat)
| Plotted (records : list Json).

(** [main], from [files = _collect_files(args.input)] on. *)
Definition main (files : list (list string)) : Outcome :=
  match files with
  | [] => FileNotFoundError
  | _ =>
      match _iter_json_records files with
      | [] => ValueError (length files)
      | records => Plotted records
      end
  end.

(** The reader as the specification words it (section 7): a malformed
    line is skipped, after a best-effort parse of the whole file, and the
    lines after it are still read. *)
Fixpoint skip_malformed_lines (whole : string) (rest : list string) : list Json :=
  match rest with
  | [] => []
  | line :: rest =>
      let line := strip line in
      if String.eqb line "" then skip_malformed_lines whole rest
      else
        match json_loads line with
        | Some record => record :: skip_malformed_lines whole rest
        | None =>
            match json_loads whole with
            | Some payload => records_of_payload payload
            | None => skip_malformed_lines whole rest
            end
        end
  end.

Definition spec_iter_json_records (paths : list (list string)) : list Json :=
  flat_map (λ path, skip_malformed_lines (String.concat "" path) path) paths.

(** What the loop of the source computes, by recursion on the lines that
    are left: after a failed whole-file parse nothing more is read. *)
Fixpoint lines_until_malformed (whole : string) (rest : list string) : list Json :=
  match rest with
  | [] => []
  | line :: rest =>
      let line := strip line in
      if String.eqb line "" then lines_until_malformed whole rest
      else
        match json_loads line with
        | Some record => record :: lines_until_malformed whole rest
        | None =>
            match json_loads whole with
            | Some payload => records_of_payload payload
            | None => []
            end
        end
  end.

End reader.

(** *** A reader for the examples

    A decoder for the fragment of JSON the examples below are written
    in: objects, arrays, strings without escapes, integers and the three
    literals, with white space between tokens. *)

Definition quote : ascii := "034"%char.

(** The white space of JSON: space, tab, line feed and carriage
    return. *)
Definition is_json_space (c : ascii) : bool :=
  let n := nat_of_ascii c in
  Nat.eqb n 32 || Nat.eqb n 9 || Nat.eqb n 10 || Nat.eqb n 13.

Fixpoint skip_ws (s : list ascii) : list ascii :=
  match s with
  | c :: s' => if is_json_space c then skip_ws s' else s
  | [] => []
  end.

Definition is_digit (c : ascii) : bool :=
  let n := nat_of_ascii c in Nat.leb 48 n && Nat.leb n 57.

Fixpoint scan_digits (s : list ascii) (acc : Z) : Z * list ascii :=
  match s with
  | c :: s' =>
      if is_digit c then scan_digits s' (10 * acc + Z.of_nat (nat_of_ascii c - 48))
      else (acc, s)
  | [] => (acc, [])
  end.

Fixpoint scan_string (s : list ascii) : option (string * list ascii) :=
  match s with
  | c :: s' =>
      if Ascii.eqb c quote then Some (EmptyString, s')
      else
        match scan_string s' with
        | Some (t, r) => Some (String c t, r)
        | None => None
        end
  | [] => None
  end.

Definition expect (word : string) (v : Json) (s : list ascii)
  : option (Json * list ascii) :=
  let w := list_ascii_of_string word in
  if bool_decide (take (length w) s = w) then Some (v, drop (length w) s) else None.

Fixpoint parse_value (fuel : nat) (s : list ascii) : option (Json * list ascii) :=
  match fuel with
  | O => None
  | S fuel' =>
      match skip_ws s with
      | "{"%char :: r =>
          match skip_ws r with
          | "}"%char :: r' => Some (JDict [], r')
          | _ => parse_members fuel' r []
          end
      | "["%char :: r =>
          match skip_ws r with
          | "]"%char :: r' => Some (JList [], r')
          | _ => parse_items fuel' r []
          end
      | "-"%char :: c :: r =>
          if is_digit c then
            let '(n, r') := scan_digits (c :: r) 0 in Some (JInt (- n), r')
          else None
      | c :: r =>
          if Ascii.eqb c quote then
            match scan_string r with
            | Some (t, r') => Some (JStr t, r')
            | None => None
            end
          else if is_digit c then
            let '(n, r') := scan_digits (c :: r) 0 in Some (JInt n, r')
          else if Ascii.eqb c "t" then expect "true" (JBool true) (c :: r)
          else if Ascii.eqb c "f" then expect "false" (JBool false) (c :: r)
          else if Ascii.eqb c "n" then expect "null" JNull (c :: r)
          else None
      | [] => None
      end
  end
with parse_items (fuel : nat) (s : list ascii) (acc : list Json)
  : option (Json * list ascii) :=
  match fuel with
  | O => None
  | S fuel' =>
      match parse_value fuel' s with
      | Some (v, r) =>
          match skip_ws r with
          | ","%char :: r' => parse_items fuel' r' (v :: acc)
          | "]"%char :: r' => Some (JList (rev (v :: acc)), r')
          | _ => None
          end
      | None => None
      end
  end
with parse_members (fuel : nat) (s : list ascii) (acc : list (string * Json))
  : option (Json * list ascii) :=
  match fuel with
  | O => None
  | S fuel' =>
      match skip_ws s with
      | c :: r =>
          if Ascii.eqb c quote then
            match scan_string r with
            | Some (key, r1) =>
                match skip_ws r1 with
                | ":"%char :: r2 =>
                    match parse_value fuel' r2 with
                    | Some (v, r3) =>
                        match skip_ws r3 with
                        | ","%char :: r4 => parse_members fuel' r4 ((key, v) :: acc)
                        | "}"%char :: r4 => Some (JDict (rev ((key, v) :: acc)), r4)
                        | _ => None
                        end
                    | None => None
                    end
                | _ => None
                end
            | None => None
            end
          else None
      | [] => None
      end
  end.

(** The whole text must be one document. *)
Definition loads (text : string) : option Json :=
  let s := list_ascii_of_string text in
  match parse_value (S (length s)) s with
  | Some (v, r) => match skip_ws r with [] => Some v | _ => None end
  | None => None
  end.

(** The text of a one-member object [{"key": n}] and a line of a file. *)
Definition object_text (key : string) (n : string) : string :=
  "{" +:+ String quote key +:+ String quote (": " +:+ n +:+ "}").

Definition line (text : string) : string := text +:+ String "010"%char "".

(** A log of three lines, the second of which is no JSON:
    [{"a": 1}], [oops], [{"b": 2}]. *)
Definition broken_log : list string :=
  [ line (object_text "a" "1"); line "oops"; line (object_text "b" "2") ].

(** A log whose first line is no JSON: [oops], [{"b": 2}]. *)
Definition broken_head_log : list string :=
  [ line "oops"; line (object_text "b" "2") ].

(** A document spread over several lines: a list of two objects. *)
Definition pretty_log : list string :=
  [ line "["; line (object_text "a" "1" +:+ ","); line (object_text "b" "2");
    line "]" ].

(** A line of white space beyond ASCII, a no-break space (U+00A0) and a
    next-line mark (U+0085), and a log with that line between two
    records. *)
Definition unicode_blank : string :=
  line (String "194"%char (String "160"%char
         (String "194"%char (String "133"%char "")))).

Definition spaced_log : list string :=
  [ line (object_text "a" "1"); unicode_blank; line (object_text "b" "2") ].

End Visualize.

(** ** [scripts/visualize_belief_divergence.py]: the series of a log *)

Module Series.
Import Visualize.

(** The exceptions of this part: those of the built-in conversions, and
    the one a method call on a value without that method raises. *)
Inductive Exception :=
| Builtin (e : PyExn)
| AttributeError.

(** The outcome of a computation that may raise. *)
Inductive outcome (A : Type) : Type :=
| Value (a : A)
| Error (e : Exception).
Arguments Value {A} a.
Arguments Error {A} e.

#[export] Instance outcome_ret : MRet outcome := fun _ a => Value a.
#[export] Instance outcome_bind : MBind outcome := fun _ _ k r =>
  match r with Value a => k a | Error e => Error e end.

Definition lift {A} (r : result A) : outcome A :=
  match r with Ok a => Value a | Raise e => Error (Builtin e) end.

(** *** Decoded objects as dictionaries *)

(** [d[k] = v] on the items of a [dict]: a key that is present keeps its
    place and takes the new value, a new key goes to the end. *)
Fixpoint dict_set (d : list (string * Json)) (k : string) (v : Json)
  : list (string * Json) :=
  match d with
  | [] => [(k, v)]
  | (k', v') :: d' =>
      if String.eqb k' k then (k', v) :: d' else (k', v') :: dict_set d' k v
  end.

(** The items of the [dict] that the members of a decoded object build,
    entered one after the other as the decoder does: of a repeated key
    the last value counts. *)
Definition items (members : list (string * Json)) : list (string * Json) :=
  foldl (λ d kv, dict_set d kv.1 kv.2) [] members.

(** The value of [key] among the items of a [dict]. *)
Fixpoint assoc (d : list (string * Json)) (key : string) : option Json :=
  match d with
  | [] => None
  | (k, v) :: d' => if String.eqb k key then Some v else assoc d' key
  end.

(** The value of [key] in a decoded object. *)
Definition dict_find (members : list (string * Json)) (key : string) : option Json :=
  assoc (items members) key.

(** [bool(v)]. *)
Definition truthy_json (v : Json) : bool :=
  match v with
  | JNull => false
  | JBool b => b
  | JInt z => negb (z =? 0)
  | JFloat f => negb (PrimFloat.eqb f 0)
  | JStr s => negb (String.eqb s "")
  | JList l => match l with [] => false | _ => true end
  | JDict d => match d with [] => false | _ => true end
  end.

(** [x.get(key)]: the value or [None]; a value that is no [dict] has no
    method [get]. *)
Definition get (x : Json) (key : string) : outcome Json :=
  match x with
  | JDict d => Value (default JNull (dict_find d key))
  | _ => Error AttributeError
  end.

(** [isinstance(v, (int, float))]; a [bool] is an [int]. *)
Definition is_number (v : Json) : bool :=
  match v with JInt _ | JFloat _ | JBool _ => true | _ => false end.

(** [key in s] for strings. *)
Fixpoint is_substring (key s : string) : bool :=
  String.prefix key s ||
  match s with
  | String _ s' => is_substring key s'
  | EmptyString => false
  end.

(** [key in x and isinstance(x[key], (int, float))], with the entry when
    it holds. A list or a string supports [in] but no subscript by a
    string; a number, a [bool] or [None] supports neither. *)
Definition numeric_entry (x : Json) (key : string) : outcome (option Json) :=
  match x with
  | JDict d =>
      match dict_find d key with
      | Some v => Value (if is_number v then Some v else None)
      | None => Value None
      end
  | JList l =>
      if existsb (λ item, match item with JStr s => String.eqb s key | _ => false end) l
      then Error (Builtin TypeError) else Value None
  | JStr s =>
      if is_substring key s then Error (Builtin TypeError) else Value None
  | JNull | JBool _ | JInt _ | JFloat _ => Error (Builtin TypeError)
  end.

Section builtins.

(** [float(s)] and [int(s)] of Python for a string [s]; [None] stands for
    [ValueError]. *)
Variable float_of_str : string → option float.
Variable int_of_str : string → option Z.

(** [float(v)]. *)
Definition to_float (v : Json) : outcome float :=
  match v with
  | JFloat f => Value f
  | JInt z => lift (float_of_int z)
  | JBool b => lift (float_of_int (bool_to_Z b))
  | JStr s =>
      match float_of_str s with
      | Some f => Value f
      | None => Error (Builtin Py.ValueError)
      end
  | JNull | JList _ | JDict _ => Error (Builtin TypeError)
  end.

(** The integer part of a float, towards zero. *)
Definition truncate (x : float) : outcome Z :=
  match Prim2SF x with
  | S754_nan => Error (Builtin Py.ValueError)
  | S754_infinity _ => Error (Builtin OverflowError)
  | S754_zero _ => Value 0
  | S754_finite s m e =>
      let n := if 0 <=? e then Z.pos m * 2 ^ e else Z.pos m / 2 ^ (- e) in
      Value (if s then - n else n)
  end.

(** [int(v)]. *)
Definition to_int (v : Json) : outcome Z :=
  match v with
  | JInt z => Value z
  | JBool b => Value (bool_to_Z b)
  | JFloat f => truncate f
  | JStr s =>
      match int_of_str s with
      | Some z => Value z
      | None => Error (Builtin Py.ValueError)
      end
  | JNull | JList _ | JDict _ => Error (Builtin TypeError)
  end.

(** [_extract_metric]. *)
Definition _extract_metric (record : Json) (key : string) : outcome (option float) :=
  top ← numeric_entry record key;
  match top with
  | Some v => x ← to_float v; Value (Some x)
  | None =>
      m ← get record "metrics";
      let metrics := if truthy_json m then m else JDict [] in
      match metrics with
      | JDict d =>
          match dict_find d key with
          | Some v => if is_number v then x ← to_float v; Value (Some x) else Value None
          | None => Value None
          end
      | _ => Value None
      end
  end.

(** [a / b] for two [int]s, [0 < b]: the quotient rounded to the nearest
    float, ties to even; [OverflowError] beyond the largest float. *)
Definition int_true_div (a b : Z) : result float :=
  if a =? 0 then Ok 0%float
  else
    let n := Z.abs a in
    let shift := Z.max 0 (56 + Z.log2 b - Z.log2 n) in
    let q := (n * 2 ^ shift) / b in
    let sticky := if (n * 2 ^ shift) mod b =? 0 then 0 else 1 in
    match binary_normalize prec emax (2 * q + sticky) (- shift - 1) false with
    | S754_finite _ m e => Ok (SF2Prim (S754_finite (a <? 0) m e))
    | S754_zero _ => Ok (SF2Prim (S754_zero (a <? 0)))
    | _ => Raise OverflowError
    end.

(** One step of [sum]: [acc + v]. Two [int]s add exactly; with a float
    the [int] is converted first. *)
Definition add (acc : PyNum) (v : Json) : outcome PyNum :=
  match acc, v with
  | NInt a, JInt z => Value (NInt (a + z))
  | NInt a, JBool b => Value (NInt (a + bool_to_Z b))
  | NInt a, JFloat y => x ← lift (float_of_int a); Value (NFloat (x + y))
  | NFloat x, JInt z => y ← lift (float_of_int z); Value (NFloat (x + y))
  | NFloat x, JBool b => y ← lift (float_of_int (bool_to_Z b)); Value (NFloat (x + y))
  | NFloat x, JFloat y => Value (NFloat (x + y))
  | _, (JNull | JStr _ | JList _ | JDict _) => Error (Builtin TypeError)
  end.

(** [sum(values)], from the [int] 0 on, one addition after the other (as
    CPython adds floats before version 3.12). *)
Fixpoint sum_from (acc : PyNum) (values : list Json) : outcome PyNum :=
  match values with
  | [] => Value acc
  | v :: rest => acc' ← add acc v; sum_from acc' rest
  end.

(** [total / n] for the length [n] of a non-empty [dict]. *)
Definition mean (total : PyNum) (n : nat) : outcome float :=
  match total with
  | NInt a => lift (int_true_div a (Z.of_nat n))
  | NFloat x => y ← lift (float_of_int (Z.of_nat n)); Value (x / y)%float
  end.

(** [_average_concept_confidence]. *)
Definition _average_concept_confidence (record : Json) : outcome (option float) :=
  concepts ← get record "concept_confidence";
  match concepts with
  | JDict ((_ :: _) as members) =>
      total ← sum_from (NInt 0) (items members).*2;
      avg ← mean total (length (items members));
      Value (Some avg)
  | _ => _extract_metric record "avg_concept_confidence"
  end.

(** [record.get("step") or record.get("timestep") or
    record.get("episode_step")]. *)
Definition step_of (record : Json) : outcome Json :=
  a ← get record "step";
  if truthy_json a then Value a
  else
    b ← get record "timestep";
    if truthy_json b then Value b
    else get record "episode_step".

(** The fallback of [_prepare_series] to the aggregated divergences. *)
Definition divergence_fallback (record : Json) (divergence_key : string)
  : outcome (option float) :=
  a ← get record "divergence";
  divergence_dict ← (if truthy_json a then Value a else get record "belief_divergence");
  match divergence_dict with
  | JDict d =>
      match dict_find d divergence_key with
      | Some v => x ← to_float v; Value (Some x)
      | None => Value None
      end
  | _ => Value None
  end.

(** The body of the loop of [_prepare_series]: the step, the confidence
    and the divergence it appends for the record at [idx]. *)
Definition series_row (idx : nat) (record : Json) (divergence_key : string)
  : outcome (Z * float * float) :=
  step ← step_of record;
  step ← (match step with JNull => Value (Z.of_nat idx) | _ => to_int step end);
  confidence ← _average_concept_confidence record;
  divergence ← _extract_metric record divergence_key;
  divergence ← (match divergence with
                | None => divergence_fallback record divergence_key
                | Some _ => Value divergence
                end);
  Value (step, default 1.0%float confidence, default 0.0%float divergence).

(** The loop of [_prepare_series] from the index [idx] on. *)
Fixpoint prepare_from (idx : nat) (records : list Json) (divergence_key : string)
  : outcome (list Z * list float * list float) :=
  match records with
  | [] => Value ([], [], [])
  | record :: rest =>
      row ← series_row idx record divergence_key;
      series ← prepare_from (S idx) rest divergence_key;
      Value (row.1.1 :: series.1.1, row.1.2 :: series.1.2, row.2 :: series.2)
  end.

(** [_prepare_series]. *)
Definition _prepare_series (records : list Json) (divergence_key : string)
  : outcome (list Z * list float * list float) :=
  prepare_from 0 records divergence_key.

End builtins.

End Series.

(** ** Further inputs of the examples *)

Module Inputs.
Import BeliefHooks.

(** A snapshot whose divergence and confidence are NaN. *)
Definition nan_metrics : BeliefMetrics :=
  {| avg_concept_confidence := nan; belief_divergence := nan;
     divergence_metrics := None; note := "steady" |}.

(** A snapshot with a named metric that is an [int] beyond the floats. *)
Definition huge_metrics : BeliefMetrics :=
  {| avg_concept_confidence := 0.9; belief_divergence := 0.2;
     divergence_metrics := Some {["count" := NInt (10 ^ 400)]};
     note := "" |}.

(** A configuration that reads the metric "count". *)
Definition count_conf : gmap string PyVal :=
  {["divergence_metric_type" := VStr "count"]}.

(** A configuration whose base threshold is a string, with both derived
    thresholds given. *)
Definition text_base_conf : gmap string PyVal :=
  <["divergence_threshold" := VStr "0.3"]>
    (<["correction_divergence_threshold" := VFloat 0.45]>
       (<["l2d_divergence_threshold" := VFloat 0.15]> ∅)).

(** [text_base_conf] reading the metric "count". *)
Definition text_count_conf : gmap string PyVal :=
  <["divergence_metric_type" := VStr "count"]> text_base_conf.

(** A configuration with L2D off and a string for its threshold. *)
Definition text_l2d_conf : gmap string PyVal :=
  {["l2d_divergence_threshold" := VStr "low"]}.

(** A log of one record a line, with an empty line in between:
    [{"a": 1}], [], [7]. *)
Definition clean_log : list string :=
  [ Visualize.line (Visualize.object_text "a" "1"); Visualize.line "";
    Visualize.line "7" ].

(** The records of the lines [ls], one per line that is not blank and
    decodes. *)
Definition decoded (json_loads : string → option Visualize.Json)
    (ls : list string) : list Visualize.Json :=
  omap json_loads (filter (λ s, s ≠ "") (Visualize.strip <$> ls)).

(** The keys [_prepare_series] reads in a record. *)
Definition keys_read (divergence_key : string) : list string :=
  [ "step"; "timestep"; "episode_step"; "concept_confidence";
    "avg_concept_confidence"; "metrics"; divergence_key; "divergence";
    "belief_divergence" ].

(** Stand-ins for [int(s)] and [float(s)] in the examples, defined on
    strings of decimal digits, which is all the examples hold. *)
Definition int_of_digits (s : string) : option Z :=
  let cs := list_ascii_of_string s in
  if forallb Visualize.is_digit cs && negb (bool_decide (cs = []))
  then Some (Visualize.scan_digits cs 0).1 else None.

Definition float_of_digits (s : string) : option float :=
  match int_of_digits s with
  | Some z => match float_of_int z with Ok x => Some x | Raise _ => None end
  | None => None
  end.

(** Records: one without any of the keys read, one whose step is zero,
    one with a step, concept confidences and a nested divergence, and one
    whose concept confidences hold a word. *)
Definition bare_record : Visualize.Json :=
  Visualize.JDict [("agent", Visualize.JStr "robot")].

Definition zero_step_record : Visualize.Json :=
  Visualize.JDict [("step", Visualize.JInt 0)].

Definition full_record : Visualize.Json :=
  Visualize.JDict
    [ ("step", Visualize.JInt 3);
      ("concept_confidence",
       Visualize.JDict [("cup", Visualize.JInt 1); ("mug", Visualize.JInt 0)]);
      ("belief_divergence", Visualize.JStr "0.9");
      ("metrics", Visualize.JDict [("belief_divergence", Visualize.JFloat 0.25)]) ].

Definition layered_record : Visualize.Json :=
  Visualize.JDict
    [ ("kl", Visualize.JFloat 0.5);
      ("metrics", Visualize.JDict [("kl", Visualize.JFloat 0.1)]);
      ("divergence", Visualize.JDict [("kl", Visualize.JFloat 0.2)]) ].

Definition huge_record : Visualize.Json :=
  Visualize.JDict [("kl", Visualize.JInt (10 ^ 400))].

Definition worded_record : Visualize.Json :=
  Visualize.JDict
    [ ("concept_confidence",
       Visualize.JDict [("cup", Visualize.JFloat 0.5); ("mug", Visualize.JStr "high")]);
      ("avg_concept_confidence", Visualize.JFloat 0.7) ].

End Inputs.

(** * Properties *)

Import BeliefHooks.

(** ** Results and options *)

Lemma dict_get_None {V} (d : gmap string V) key dflt :
  d !! key = None → dict_get d key dflt = dflt.
Proof. unfold dict_get. by intros ->. Qed.

Lemma dict_get_Some {V} (d : gmap string V) key dflt v :
  d !! key = Some v → dict_get d key dflt = v.
Proof. unfold dict_get. by intros ->. Qed.

Lemma dict_get_agree {V} (d1 d2 : gmap string V) key dflt :
  d1 !! key = d2 !! key → dict_get d1 key dflt = dict_get d2 key dflt.
Proof. unfold dict_get. by intros ->. Qed.

Lemma dict_truthy_lookup {V} (d : gmap string V) key v :
  d !! key = Some v → dict_truthy d = true.
Proof.
  intros H. unfold dict_truthy. rewrite bool_decide_eq_false_2; [done|].
  intros ->. by rewrite lookup_empty in H.
Qed.

Lemma eq_str_true v s : eq_str v s = true ↔ v = VStr s.
Proof.
  destruct v; simpl; try (split; [discriminate | intros [=]]).
  rewrite String.eqb_eq. split; [by intros -> | by intros [= ->]].
Qed.

Lemma eq_str_false v s : v ≠ VStr s → eq_str v s = false.
Proof.
  intros H. destruct (eq_str v s) eqn:E; [|done].
  by apply eq_str_true in E.
Qed.

(** ** [get_divergence] *)

Lemma has_metric_lookup metrics dm name v :
  divergence_metrics metrics = Some dm → dm !! name = Some v →
  has_metric metrics (VStr name) = Some v.
Proof.
  intros Hdm Hv. unfold has_metric. rewrite Hdm.
  by rewrite (dict_truthy_lookup _ _ _ Hv).
Qed.

Lemma has_metric_absent metrics t :
  (∀ dm, divergence_metrics metrics = Some dm → dict_lookup dm t = None) →
  has_metric metrics t = None.
Proof.
  intros H. unfold has_metric. destruct (divergence_metrics metrics) as [dm|]; [|done].
  rewrite (H dm eq_refl). by destruct (dict_truthy dm).
Qed.

(** C2. [get_divergence] returns the scalar [belief_divergence] for the
    name "belief_divergence" whatever the named metrics hold, the entry
    converted by [float] for any other name the named metrics have, and
    the scalar again, without raising, for a name they do not have. *)
Theorem get_divergence_cases :
  (∀ metrics, get_divergence metrics (VStr "belief_divergence")
              = Ok (belief_divergence metrics)) ∧
  (∀ metrics dm name v,
      divergence_metrics metrics = Some dm →
      name ≠ "belief_divergence" →
      dm !! name = Some v →
      get_divergence metrics (VStr name) = py_float v) ∧
  (∀ metrics metric_type,
      (∀ dm, divergence_metrics metrics = Some dm →
             dict_lookup dm metric_type = None) →
      get_divergence metrics metric_type = Ok (belief_divergence metrics)) ∧
  (∀ f, py_float (NFloat f) = Ok f).
Proof.
  split; [done|]. split; [|split; [|done]].
  - intros metrics dm name v Hdm Hne Hv. unfold get_divergence.
    rewrite eq_str_false; [|by intros [= ->]].
    by rewrite (has_metric_lookup _ _ _ _ Hdm Hv).
  - intros metrics t H. unfold get_divergence.
    rewrite (has_metric_absent _ _ H). by destruct (eq_str t _).
Qed.

Lemma get_divergence_cases_witness :
  get_divergence conflicting_metrics (VStr "belief_divergence") = Ok 0.2%float ∧
  get_divergence conflicting_metrics (VStr "concept_js_divergence") = Ok 1%float ∧
  get_divergence conflicting_metrics (VStr "concept_kl_divergence") = Ok 0.2%float ∧
  get_divergence conflicting_metrics (VInt 3) = Ok 0.2%float.
Proof.
  destruct get_divergence_cases as (H1 & H2 & H3 & _).
  split; [apply (H1 conflicting_metrics)|].
  split; [apply (H2 conflicting_metrics _ "concept_js_divergence" (NInt 1) eq_refl);
          [discriminate | vm_compute; reflexivity]|].
  split; apply (H3 conflicting_metrics); intros dm [= <-]; vm_compute; reflexivity.
Defined.

(** ** The two early returns of [choose_belief_action] *)

Lemma choose_disabled conf metrics :
  truthy (dict_get conf "cbwm_enabled" (VBool true)) = false →
  choose_belief_action (Some conf) metrics = Ok (VNone, "CBWM hooks disabled.").
Proof. intros H. unfold choose_belief_action. by rewrite H. Qed.

Lemma choose_not_disabled conf metrics :
  truthy (dict_get conf "cbwm_enabled" (VBool true)) = true →
  choose_belief_action (Some conf) metrics = choose_enabled conf metrics.
Proof. intros H. unfold choose_belief_action. by rewrite H. Qed.

(** C3. With [cbwm_enabled] set to [False] the hook returns no action
    and the reason "CBWM hooks disabled." whatever the metrics are, and
    without a configuration it returns no action and the empty reason. *)
Theorem disabled_short_circuit :
  (∀ conf metrics,
      conf !! "cbwm_enabled" = Some (VBool false) →
      choose_belief_action (Some conf) metrics
      = Ok (VNone, "CBWM hooks disabled.")) ∧
  (∀ metrics, choose_belief_action None metrics = Ok (VNone, "")).
Proof.
  split; [|done].
  intros conf metrics H. apply choose_disabled.
  by rewrite (dict_get_Some _ _ _ _ H).
Qed.

Lemma disabled_short_circuit_witness :
  choose_belief_action (Some off_conf) confident_divergent
  = Ok (VNone, "CBWM hooks disabled.").
Proof.
  apply (proj1 disabled_short_circuit off_conf confident_divergent).
  vm_compute; reflexivity.
Defined.

(** C10. Any false value stored under [cbwm_enabled] (zero, the empty
    string, [None], ...) disables the hook as [False] does. *)
Theorem falsy_cbwm_enabled_disables :
  (∀ conf metrics v,
      conf !! "cbwm_enabled" = Some v →
      truthy v = false →
      choose_belief_action (Some conf) metrics
      = Ok (VNone, "CBWM hooks disabled.")) ∧
  truthy (VInt 0) = false ∧ truthy (VStr "") = false ∧ truthy VNone = false ∧
  truthy (VFloat 0) = false ∧ truthy (VBool false) = false.
Proof.
  split; [|by vm_compute].
  intros conf metrics v H Hv. apply choose_disabled.
  by rewrite (dict_get_Some _ _ _ _ H).
Qed.

Lemma falsy_cbwm_enabled_disables_witness :
  choose_belief_action (Some zero_conf) confident_divergent
  = Ok (VNone, "CBWM hooks disabled.").
Proof.
  apply (proj1 falsy_cbwm_enabled_disables zero_conf confident_divergent (VInt 0));
    vm_compute; reflexivity.
Defined.

(** ** [map_detection_to_concepts] *)

Import ConceptMapping.

(** C4. Without a detection the mapper returns two empty lists; a
    detected type that is in the lexicon, or any detected type when no
    lexicon is given, is mapped to itself with confidence 1.0; one that is
    not in the lexicon gets the label "unknown" with confidence 0.1 in
    addition; the two lists are always of the same length. *)
Theorem map_detection_cases :
  (∀ metadata, map_detection_to_concepts None metadata = ([], [])) ∧
  (∀ detected, map_detection_to_concepts (Some detected) None
               = ([detected], [1.0%float])) ∧
  (∀ detected md, detected ∈ lexicon md →
      map_detection_to_concepts (Some detected) (Some md)
      = ([detected], [1.0%float])) ∧
  (∀ detected md, detected ∉ lexicon md →
      map_detection_to_concepts (Some detected) (Some md)
      = ([detected; "unknown"], [1.0%float; 0.1%float])) ∧
  (∀ detected_type metadata,
      length (map_detection_to_concepts detected_type metadata).1
      = length (map_detection_to_concepts detected_type metadata).2).
Proof.
  split; [done|]. split; [done|]. split; [|split].
  - intros detected md H. simpl. by rewrite bool_decide_eq_true_2.
  - intros detected md H. simpl. by rewrite bool_decide_eq_false_2.
  - intros [detected|] [md|]; simpl; try done.
    by destruct (bool_decide _).
Qed.

Lemma map_detection_cases_witness :
  map_detection_to_concepts (Some "chair") (Some {| lexicon := ["table"; "chair"] |})
  = (["chair"], [1.0%float]) ∧
  map_detection_to_concepts (Some "mug") (Some {| lexicon := ["table"; "chair"] |})
  = (["mug"; "unknown"], [1.0%float; 0.1%float]).
Proof.
  destruct map_detection_cases as (_ & _ & Hin & Hout & _).
  split.
  - apply (Hin "chair" {| lexicon := ["table"; "chair"] |}).
    apply (bool_decide_unpack _). vm_compute; reflexivity.
  - apply (Hout "mug" {| lexicon := ["table"; "chair"] |}).
    apply (bool_decide_unpack _). vm_compute; reflexivity.
Defined.

(** ** The decision with float thresholds *)

(** With thresholds that are floats nothing raises, and the decision is
    the chain of conditions of the source. *)
Lemma choose_enabled_floats conf metrics active c k l d :
  get_divergence metrics (divergence_metric_type conf) = Ok active →
  correction_threshold conf = Ok (VFloat c) →
  confidence_threshold conf = VFloat k →
  l2d_threshold conf = Ok (VFloat l) →
  div_threshold conf = VFloat d →
  choose_enabled conf metrics =
  Ok (if PrimFloat.leb c active then
        (correction_action conf,
         correction_reason (py_str (divergence_metric_type conf))
           (float_format_2f active) (float_format_2f c))
      else if PrimFloat.ltb (avg_concept_confidence metrics) k then
        (low_confidence_action conf,
         low_confidence_reason (float_format_2f (avg_concept_confidence metrics))
           (float_format_2f k))
      else if truthy (l2d_enabled conf) && PrimFloat.leb l active then
        (l2d_action conf,
         l2d_reason (py_str (divergence_metric_type conf))
           (float_format_2f active) (float_format_2f l))
      else if PrimFloat.leb d active then
        (high_divergence_action conf,
         high_divergence_reason (py_str (divergence_metric_type conf))
           (float_format_2f active) (float_format_2f d))
      else (VNone, note metrics)).
Proof.
  intros Ha Hc Hk Hl Hd. unfold choose_enabled.
  rewrite Ha, Hc, Hl, Hk, Hd. simpl.
  destruct (PrimFloat.leb c active); [done|]. simpl.
  destruct (PrimFloat.ltb _ k); [done|]. simpl.
  unfold l2d_guard. destruct (truthy (l2d_enabled conf)); simpl.
  - destruct (PrimFloat.leb l active); [done|]. simpl.
    by destruct (PrimFloat.leb d active).
  - by destruct (PrimFloat.leb d active).
Qed.

Lemma threshold_float conf key dflt :
  key ∈ threshold_names → thresholds_are_floats conf →
  ∃ f, dict_get conf key (VFloat dflt) = VFloat f.
Proof.
  intros Hkey Hconf. unfold dict_get.
  destruct (conf !! key) as [v|] eqn:E; simpl; [|by eexists].
  exact (Hconf key v Hkey E).
Qed.

Lemma thresholds_resolve conf :
  thresholds_are_floats conf →
  ∃ d c k l,
    div_threshold conf = VFloat d ∧ correction_threshold conf = Ok (VFloat c) ∧
    confidence_threshold conf = VFloat k ∧ l2d_threshold conf = Ok (VFloat l).
Proof.
  intros H.
  destruct (threshold_float conf "divergence_threshold" 0.3) as [d Hd];
    [unfold threshold_names; set_solver | done |].
  destruct (threshold_float conf "concept_confidence_threshold" 0.5) as [k Hk];
    [unfold threshold_names; set_solver | done |].
  destruct (threshold_float conf "correction_divergence_threshold" (d * 1.5)%float)
    as [c Hc]; [unfold threshold_names; set_solver | done |].
  destruct (threshold_float conf "l2d_divergence_threshold" (d * 0.5)%float)
    as [l Hl]; [unfold threshold_names; set_solver | done |].
  exists d, c, k, l. unfold div_threshold, correction_threshold,
    confidence_threshold, l2d_threshold, div_threshold.
  rewrite Hd. simpl. by rewrite Hc, Hl, Hk.
Qed.

Lemma thresholds_are_floats_empty : thresholds_are_floats ∅.
Proof. intros key v _ H. by rewrite lookup_empty in H. Qed.

Lemma choose_ok_floats conf metrics :
  thresholds_are_floats conf →
  is_ok (get_divergence metrics (divergence_metric_type conf)) = true →
  is_ok (choose_belief_action (Some conf) metrics) = true.
Proof.
  intros Hconf Hdiv. unfold choose_belief_action.
  destruct (negb _); [done|].
  destruct (get_divergence _ _) as [active|] eqn:Ha; [|done].
  destruct (thresholds_resolve conf Hconf) as (d & c & k & l & Hd & Hc & Hk & Hl).
  by rewrite (choose_enabled_floats _ _ _ _ _ _ _ Ha Hc Hk Hl Hd).
Qed.

(** *** A missing option and its default *)

Lemma dict_get_insert_eq {V} (d : gmap string V) key v dflt :
  dict_get (<[key := v]> d) key dflt = v.
Proof. unfold dict_get. by rewrite lookup_insert_eq. Qed.

Lemma dict_get_insert_ne {V} (d : gmap string V) key key' v dflt :
  key ≠ key' → dict_get (<[key := v]> d) key' dflt = dict_get d key' dflt.
Proof. intros H. unfold dict_get. by rewrite lookup_insert_ne. Qed.

Lemma dict_get_singleton_ne {V} key key' (v dflt : V) :
  key ≠ key' → dict_get ({[key := v]} : gmap string V) key' dflt = dflt.
Proof. intros H. unfold dict_get. by rewrite lookup_singleton_ne. Qed.

Lemma dict_get_singleton_eq {V} key (v dflt : V) :
  dict_get ({[key := v]} : gmap string V) key dflt = v.
Proof. unfold dict_get. by rewrite lookup_singleton_eq. Qed.

(** Entering the default of a missing option changes no reading of the
    configuration. *)
Lemma dict_get_fill {V} (d : gmap string V) key v key' dflt :
  d !! key = None → (key' = key → dflt = v) →
  dict_get (<[key := v]> d) key' dflt = dict_get d key' dflt.
Proof.
  intros Hnone Hd. destruct (decide (key' = key)) as [->|Hne].
  - rewrite dict_get_insert_eq, (dict_get_None _ _ _ Hnone). symmetry. by apply Hd.
  - by apply dict_get_insert_ne.
Qed.

(** The result is a function of the eleven options as they are read. *)
Lemma choose_same_options conf1 conf2 metrics :
  dict_get conf1 "cbwm_enabled" (VBool true)
  = dict_get conf2 "cbwm_enabled" (VBool true) →
  divergence_metric_type conf1 = divergence_metric_type conf2 →
  div_threshold conf1 = div_threshold conf2 →
  correction_threshold conf1 = correction_threshold conf2 →
  confidence_threshold conf1 = confidence_threshold conf2 →
  l2d_threshold conf1 = l2d_threshold conf2 →
  l2d_enabled conf1 = l2d_enabled conf2 →
  correction_action conf1 = correction_action conf2 →
  low_confidence_action conf1 = low_confidence_action conf2 →
  l2d_action conf1 = l2d_action conf2 →
  high_divergence_action conf1 = high_divergence_action conf2 →
  choose_belief_action (Some conf1) metrics
  = choose_belief_action (Some conf2) metrics.
Proof.
  intros H1 H2 H3 H4 H5 H6 H7 H8 H9 H10 H11.
  unfold choose_belief_action, choose_enabled.
  by rewrite H1, H2, H3, H4, H5, H6, H7, H8, H9, H10, H11.
Qed.

Ltac default_of_key H :=
  intros <-; vm_compute in H; congruence.

Lemma choose_fill_default conf metrics key dflt :
  documented_default conf key = Some dflt → conf !! key = None →
  choose_belief_action (Some (<[key := dflt]> conf)) metrics
  = choose_belief_action (Some conf) metrics.
Proof.
  intros Hd Hnone.
  assert (div_threshold (<[key := dflt]> conf) = div_threshold conf) as Hbase.
  { apply dict_get_fill; [done|]. default_of_key Hd. }
  apply choose_same_options; try done;
    try (apply dict_get_fill; [done|]; default_of_key Hd).
  - unfold correction_threshold. rewrite Hbase.
    destruct (mul_float (div_threshold conf) 1.5) as [f|e] eqn:E; [|done].
    simpl. f_equal. apply dict_get_fill; [done|]. intros <-.
    change (match div_threshold conf with
            | VFloat d => Some (VFloat (d * 1.5))
            | _ => None
            end = Some dflt) in Hd.
    destruct (div_threshold conf); simplify_eq/=. done.
  - unfold l2d_threshold. rewrite Hbase.
    destruct (mul_float (div_threshold conf) 0.5) as [f|e] eqn:E; [|done].
    simpl. f_equal. apply dict_get_fill; [done|]. intros <-.
    change (match div_threshold conf with
            | VFloat d => Some (VFloat (d * 0.5))
            | _ => None
            end = Some dflt) in Hd.
    destruct (div_threshold conf); simplify_eq/=. done.
Qed.

Lemma choose_base_conf d on metrics :
  choose_belief_action (Some (base_conf d on)) metrics
  = Ok (default_decision d on metrics).
Proof.
  assert (∀ key dflt, key ≠ "divergence_threshold" → key ≠ "l2d_action_enabled" →
            dict_get (base_conf d on) key dflt = dflt) as Hother.
  { intros key dflt H1 H2. unfold base_conf.
    rewrite dict_get_insert_ne by done. by apply dict_get_singleton_ne. }
  assert (div_threshold (base_conf d on) = VFloat d) as Hd
    by apply dict_get_insert_eq.
  assert (l2d_enabled (base_conf d on) = VBool on) as Hon.
  { unfold l2d_enabled, base_conf. rewrite dict_get_insert_ne by done.
    apply dict_get_singleton_eq. }
  assert (divergence_metric_type (base_conf d on) = VStr "belief_divergence")
    as Hm by by apply Hother.
  unfold choose_belief_action. rewrite Hother by done. simpl.
  rewrite (choose_enabled_floats (base_conf d on) metrics
             (belief_divergence metrics) (d * 1.5) 0.5 (d * 0.5) d).
  - unfold default_decision, correction_action, low_confidence_action,
      l2d_action, high_divergence_action.
    rewrite Hon, Hm, !Hother by done. done.
  - by rewrite Hm.
  - unfold correction_threshold. rewrite Hd. simpl. by rewrite Hother.
  - by apply Hother.
  - unfold l2d_threshold. rewrite Hd. simpl. by rewrite Hother.
  - done.
Qed.

Lemma choose_empty_conf metrics :
  choose_belief_action (Some ∅) metrics = Ok (default_decision 0.3 false metrics).
Proof.
  rewrite <-(choose_base_conf 0.3 false metrics). unfold base_conf.
  rewrite (choose_fill_default _ _ "divergence_threshold" (VFloat 0.3));
    [|reflexivity | by apply lookup_singleton_ne].
  change ({["l2d_action_enabled" := VBool false]} : gmap string PyVal)
    with (<["l2d_action_enabled" := VBool false]> (∅ : gmap string PyVal)).
  by rewrite (choose_fill_default _ _ "l2d_action_enabled" (VBool false)).
Qed.

(** C6. A missing option is no error and takes its default: 0.3 for
    the divergence threshold, 1.5 times and 0.5 times the divergence
    threshold for the correction and L2D thresholds, 0.5 for the
    confidence threshold, [False] for the L2D switch, and the documented
    names for the metric and the four actions. The hook raises for no
    configuration whose present thresholds are floats, whichever options
    it lacks. The defaults are what the hook decides with: for a
    configuration that lacks an option the result is the one for the
    configuration with the documented default entered under that option,
    whatever the other options hold; and for the empty configuration,
    and for one that sets only the divergence threshold and the L2D
    switch, the result is the decision of section 4.4 over the
    thresholds [d * 1.5], 0.5, [d * 0.5] and [d] with the documented
    action names. *)
Theorem missing_options_take_defaults :
  (∀ conf, conf !! "divergence_threshold" = None →
           div_threshold conf = VFloat 0.3) ∧
  (∀ conf d, conf !! "correction_divergence_threshold" = None →
             div_threshold conf = VFloat d →
             correction_threshold conf = Ok (VFloat (d * 1.5))) ∧
  (∀ conf d, conf !! "l2d_divergence_threshold" = None →
             div_threshold conf = VFloat d →
             l2d_threshold conf = Ok (VFloat (d * 0.5))) ∧
  (∀ conf, conf !! "concept_confidence_threshold" = None →
           confidence_threshold conf = VFloat 0.5) ∧
  (∀ conf, conf !! "l2d_action_enabled" = None →
           l2d_enabled conf = VBool false) ∧
  (∀ conf, conf !! "divergence_metric_type" = None →
           divergence_metric_type conf = VStr "belief_divergence") ∧
  (∀ conf, conf !! "cbwm_enabled" = None →
           dict_get conf "cbwm_enabled" (VBool true) = VBool true) ∧
  (∀ conf, conf !! "correction_action" = None →
           correction_action conf = VStr "CorrectHuman") ∧
  (∀ conf, conf !! "low_confidence_action" = None →
           low_confidence_action conf = VStr "AppendObservation") ∧
  (∀ conf, conf !! "l2d_action" = None →
           l2d_action conf = VStr "LookToDisambiguate") ∧
  (∀ conf, conf !! "high_divergence_action" = None →
           high_divergence_action conf = VStr "AskHuman") ∧
  (∀ conf metrics,
      thresholds_are_floats conf →
      is_ok (get_divergence metrics (divergence_metric_type conf)) = true →
      is_ok (choose_belief_action (Some conf) metrics) = true) ∧
  (∀ metrics, is_ok (choose_belief_action (Some ∅) metrics) = true) ∧
  (∀ conf metrics key dflt,
      conf !! key = None → documented_default conf key = Some dflt →
      choose_belief_action (Some conf) metrics
      = choose_belief_action (Some (<[key := dflt]> conf)) metrics) ∧
  (∀ key, key ∈ option_names → is_Some (documented_default ∅ key)) ∧
  (∀ metrics,
      choose_belief_action (Some ∅) metrics
      = Ok (default_decision 0.3 false metrics)) ∧
  (∀ d on metrics,
      choose_belief_action (Some (base_conf d on)) metrics
      = Ok (default_decision d on metrics)).
Proof.
  repeat lazymatch goal with |- _ ∧ _ => split end;
    try (intros conf H; by apply dict_get_None).
  - intros conf d H Hd. unfold correction_threshold. rewrite Hd. simpl.
    by rewrite (dict_get_None _ _ _ H).
  - intros conf d H Hd. unfold l2d_threshold. rewrite Hd. simpl.
    by rewrite (dict_get_None _ _ _ H).
  - apply choose_ok_floats.
  - intros metrics. apply choose_ok_floats; [apply thresholds_are_floats_empty|done].
  - intros conf metrics key dflt Hnone Hd. symmetry. by apply choose_fill_default.
  - intros key Hkey. unfold option_names in Hkey.
    repeat (apply elem_of_cons in Hkey as [->|Hkey]; [by eexists|]).
    by apply elem_of_nil in Hkey.
  - apply choose_empty_conf.
  - apply choose_base_conf.
Qed.

Lemma missing_options_take_defaults_witness :
  correction_threshold default_conf = Ok (VFloat 0.44999999999999996) ∧
  l2d_threshold default_conf = Ok (VFloat 0.15) ∧
  is_ok (choose_belief_action (Some l2d_conf) conflicting_metrics) = true ∧
  choose_belief_action (Some l2d_conf) confident_drifting
  = choose_belief_action
      (Some (<["l2d_divergence_threshold" := VFloat 0.15]> l2d_conf))
      confident_drifting ∧
  choose_belief_action (Some default_conf) confident_divergent
  = Ok (VStr "CorrectHuman",
        "Belief divergence (belief_divergence) 0.90 exceeds correction threshold 0.45.") ∧
  choose_belief_action (Some (base_conf 0.3 true)) confident_drifting
  = Ok (VStr "LookToDisambiguate",
        "Divergence (belief_divergence) 0.20 exceeds L2D threshold 0.15.").
Proof.
  destruct missing_options_take_defaults
    as (_ & Hc & Hl & _ & _ & _ & _ & _ & _ & _ & _ & Hok & _ & Hfill & _ &
        Hempty & Hbase).
  split_and!.
  - apply (Hc default_conf 0.3%float); vm_compute; reflexivity.
  - apply (Hl default_conf 0.3%float); vm_compute; reflexivity.
  - apply (Hok l2d_conf conflicting_metrics); [|vm_compute; reflexivity].
    intros key v Hkey H. unfold l2d_conf in H.
    apply lookup_singleton_Some in H as [<- _]. exfalso. revert Hkey.
    change ("l2d_action_enabled" ∉ threshold_names).
    apply (bool_decide_unpack _). vm_compute; reflexivity.
  - apply (Hfill l2d_conf confident_drifting "l2d_divergence_threshold"
             (VFloat 0.15)); vm_compute; reflexivity.
  - apply (Hempty confident_divergent).
  - apply (Hbase 0.3%float true confident_drifting).
Defined.

(** ** The priority order *)

Lemma first_match_spec_rules conf confidence active c k l d on :
  first_match (spec_rules conf confidence active c k l d on) =
  if PrimFloat.leb c active then Some (correction_action conf)
  else if PrimFloat.ltb confidence k then Some (low_confidence_action conf)
  else if on && PrimFloat.leb l active then Some (l2d_action conf)
  else if PrimFloat.leb d active then Some (high_divergence_action conf)
  else None.
Proof.
  unfold first_match, spec_rules.
  destruct (PrimFloat.leb c active), (PrimFloat.ltb confidence k), on,
    (PrimFloat.leb l active), (PrimFloat.leb d active); reflexivity.
Qed.

(** C1. The hook decides by the first rule that matches, in the order
    correction, low confidence, L2D, high divergence, and returns no
    action with the note of the metrics when none does. With the default
    configuration, confidence 0.9 and divergence 0.9 give "CorrectHuman",
    and confidence 0.4 and divergence 0.0 give "AppendObservation". *)
Theorem priority_order :
  (∀ conf metrics active c k l d on,
      truthy (dict_get conf "cbwm_enabled" (VBool true)) = true →
      get_divergence metrics (divergence_metric_type conf) = Ok active →
      correction_threshold conf = Ok (VFloat c) →
      confidence_threshold conf = VFloat k →
      l2d_threshold conf = Ok (VFloat l) →
      div_threshold conf = VFloat d →
      l2d_enabled conf = VBool on →
      match first_match
              (spec_rules conf (avg_concept_confidence metrics) active c k l d on)
      with
      | Some action =>
          ∃ reason, choose_belief_action (Some conf) metrics = Ok (action, reason)
      | None => choose_belief_action (Some conf) metrics = Ok (VNone, note metrics)
      end) ∧
  choose_belief_action (Some default_conf) confident_divergent
  = Ok (VStr "CorrectHuman",
        "Belief divergence (belief_divergence) 0.90 exceeds correction threshold 0.45.") ∧
  choose_belief_action (Some default_conf) unsure_aligned
  = Ok (VStr "AppendObservation",
        "Average concept confidence 0.40 is below threshold 0.50.") ∧
  choose_belief_action (Some l2d_conf) confident_drifting
  = Ok (VStr "LookToDisambiguate",
        "Divergence (belief_divergence) 0.20 exceeds L2D threshold 0.15.") ∧
  choose_belief_action (Some default_conf) confident_warning
  = Ok (VStr "AskHuman",
        "Belief divergence (belief_divergence) 0.35 exceeds threshold 0.30.") ∧
  choose_belief_action (Some default_conf) confident_drifting
  = Ok (VNone, "steady").
Proof.
  split; [|by vm_compute].
  intros conf metrics active c k l d on Hen Ha Hc Hk Hl Hd Hon.
  rewrite first_match_spec_rules, (choose_not_disabled _ _ Hen),
    (choose_enabled_floats _ _ _ _ _ _ _ Ha Hc Hk Hl Hd), Hon. simpl.
  destruct (PrimFloat.leb c active); [by eexists|].
  destruct (PrimFloat.ltb _ k); [by eexists|].
  destruct (on && PrimFloat.leb l active); [by eexists|].
  destruct (PrimFloat.leb d active); [by eexists|done].
Qed.

Lemma priority_order_witness :
  ∃ reason, choose_belief_action (Some l2d_conf) confident_drifting
            = Ok (VStr "LookToDisambiguate", reason).
Proof.
  apply (proj1 priority_order l2d_conf confident_drifting
           0.2%float 0.44999999999999996%float 0.5%float 0.15%float 0.3%float true);
    vm_compute; reflexivity.
Defined.

(** ** Determinism and the single branch *)

Lemma returns_at_sound conf metrics b out :
  returns_at conf metrics b out → choose_belief_action conf metrics = Ok out.
Proof.
  destruct 1; try done; try (by apply choose_disabled);
    rewrite choose_not_disabled by done; unfold choose_enabled;
    repeat match goal with H : _ = Ok _ |- _ => rewrite H; clear H; simpl end;
    done.
Qed.

Lemma returns_at_complete conf metrics out :
  choose_belief_action conf metrics = Ok out → ∃ b, returns_at conf metrics b out.
Proof.
  destruct conf as [conf|]; simpl.
  2:{ intros [= <-]. eexists. constructor. }
  destruct (truthy (dict_get conf "cbwm_enabled" (VBool true))) eqn:Hen; simpl.
  2:{ intros [= <-]. eexists. by constructor. }
  unfold choose_enabled.
  destruct (get_divergence _ _) as [active|] eqn:Ha; [simpl|done].
  destruct (correction_threshold conf) as [correction|] eqn:Hc; [simpl|done].
  destruct (l2d_threshold conf) as [l2d|] eqn:Hl; [simpl|done].
  destruct (float_ge active correction) as [[]|] eqn:H1; [simpl| simpl |done].
  { destruct (format_2f correction) as [t|] eqn:Ht; [simpl|done].
    intros [= <-]. eexists. by eapply ret_correction. }
  destruct (float_lt _ _) as [[]|] eqn:H2; [simpl| simpl |done].
  { destruct (format_2f _) as [t|] eqn:Ht; [simpl|done].
    intros [= <-]. eexists. by eapply ret_low_confidence. }
  destruct (l2d_guard _ _ _) as [[]|] eqn:H3; [simpl| simpl |done].
  { destruct (format_2f l2d) as [t|] eqn:Ht; [simpl|done].
    intros [= <-]. eexists. by eapply ret_l2d. }
  destruct (float_ge active (div_threshold conf)) as [[]|] eqn:H4; [simpl| simpl |done].
  { destruct (format_2f _) as [t|] eqn:Ht; [simpl|done].
    intros [= <-]. eexists. by eapply ret_high_divergence. }
  intros [= <-]. eexists. by eapply ret_no_action.
Qed.

Lemma returns_at_one_branch conf metrics b1 b2 out1 out2 :
  returns_at conf metrics b1 out1 → returns_at conf metrics b2 out2 → b1 = b2.
Proof.
  destruct 1; inversion 1; subst; try reflexivity; congruence.
Qed.

Lemma choose_agree conf1 conf2 metrics :
  (∀ key, key ∈ option_names → conf1 !! key = conf2 !! key) →
  choose_belief_action (Some conf1) metrics = choose_belief_action (Some conf2) metrics.
Proof.
  intros H.
  assert (∀ key dflt, key ∈ option_names →
            dict_get conf1 key dflt = dict_get conf2 key dflt) as Hget.
  { intros key dflt Hkey. apply dict_get_agree, H, Hkey. }
  unfold choose_belief_action, choose_enabled, divergence_metric_type,
    correction_threshold, l2d_threshold, div_threshold, confidence_threshold,
    l2d_enabled, correction_action, low_confidence_action, l2d_action,
    high_divergence_action.
  rewrite !(Hget "cbwm_enabled"), !(Hget "divergence_metric_type"),
    !(Hget "divergence_threshold"), !(Hget "concept_confidence_threshold"),
    !(Hget "l2d_action_enabled"), !(Hget "correction_action"),
    !(Hget "low_confidence_action"), !(Hget "l2d_action"),
    !(Hget "high_divergence_action")
    by (unfold option_names; set_solver).
  destruct (negb _); [done|].
  destruct (get_divergence _ _); [simpl|done].
  destruct (mul_float _ 1.5); [simpl|done].
  rewrite (Hget "correction_divergence_threshold")
    by (unfold option_names; set_solver).
  destruct (mul_float _ 0.5); [simpl|done].
  by rewrite (Hget "l2d_divergence_threshold")
    by (unfold option_names; set_solver).
Qed.

(** C7. The result of the hook is a function of the options it reads
    and of the metrics alone: two configurations that agree on these
    options give the same result for the same metrics, and a call that
    returns does so from exactly one return statement of the
    hierarchy. *)
Theorem deterministic_single_branch :
  (∀ conf1 conf2 metrics,
      (∀ key, key ∈ option_names → conf1 !! key = conf2 !! key) →
      choose_belief_action (Some conf1) metrics
      = choose_belief_action (Some conf2) metrics) ∧
  (∀ conf metrics out,
      choose_belief_action conf metrics = Ok out →
      ∃ b, returns_at conf metrics b out ∧
           ∀ b' out', returns_at conf metrics b' out' → b' = b ∧ out' = out) ∧
  (∀ conf metrics b out,
      returns_at conf metrics b out → choose_belief_action conf metrics = Ok out).
Proof.
  split; [apply choose_agree|]. split; [|apply returns_at_sound].
  intros conf metrics out H.
  destruct (returns_at_complete _ _ _ H) as [b Hb]. exists b. split; [done|].
  intros b' out' Hb'. split.
  - exact (returns_at_one_branch _ _ _ _ _ _ Hb' Hb).
  - apply returns_at_sound in Hb'. congruence.
Qed.

Lemma deterministic_single_branch_witness :
  choose_belief_action (Some l2d_conf) confident_drifting
  = choose_belief_action (Some l2d_conf_extra) confident_drifting ∧
  ∃ b, returns_at (Some l2d_conf) confident_drifting b
         (VStr "LookToDisambiguate",
          "Divergence (belief_divergence) 0.20 exceeds L2D threshold 0.15.") ∧
       ∀ b' out', returns_at (Some l2d_conf) confident_drifting b' out' →
                  b' = b ∧
                  out' = (VStr "LookToDisambiguate",
                          "Divergence (belief_divergence) 0.20 exceeds L2D threshold 0.15.").
Proof.
  destruct deterministic_single_branch as (Hagree & Hone & _).
  split.
  - apply (Hagree l2d_conf l2d_conf_extra confident_drifting).
    intros key Hkey. unfold l2d_conf_extra. rewrite lookup_insert_ne; [done|].
    intros <-. revert Hkey. change ("planner_name" ∉ option_names).
    apply (bool_decide_unpack _). vm_compute; reflexivity.
  - apply (Hone (Some l2d_conf) confident_drifting). vm_compute; reflexivity.
Defined.

(** ** The reasons *)

Lemma append_assoc (a b c : string) : (a +:+ b) +:+ c = a +:+ b +:+ c.
Proof.
  induction a as [|x a IH]; [reflexivity|].
  change (String x ((a +:+ b) +:+ c) = String x (a +:+ b +:+ c)).
  by rewrite IH.
Qed.

Lemma mentions_here part post : mentions part (part +:+ post).
Proof. by exists "", post. Qed.

Lemma mentions_later pre part whole :
  mentions part whole → mentions part (pre +:+ whole).
Proof.
  intros (p & q & ->). exists (pre +:+ p), q. symmetry. apply append_assoc.
Qed.

Create HintDb reasons.
#[local] Hint Resolve mentions_here mentions_later : reasons.

Lemma correction_reason_mentions name active threshold :
  mentions name (correction_reason name active threshold) ∧
  mentions active (correction_reason name active threshold) ∧
  mentions threshold (correction_reason name active threshold).
Proof. unfold correction_reason. repeat split; auto 10 with reasons. Qed.

Lemma low_confidence_reason_mentions confidence threshold :
  mentions "Average concept confidence"
    (low_confidence_reason confidence threshold) ∧
  mentions confidence (low_confidence_reason confidence threshold) ∧
  mentions threshold (low_confidence_reason confidence threshold).
Proof.
  unfold low_confidence_reason. repeat split; auto 10 with reasons.
  by exists "", (" " +:+ confidence +:+ " is below threshold " +:+ threshold +:+ ".").
Qed.

Lemma l2d_reason_mentions name active threshold :
  mentions name (l2d_reason name active threshold) ∧
  mentions active (l2d_reason name active threshold) ∧
  mentions threshold (l2d_reason name active threshold).
Proof. unfold l2d_reason. repeat split; auto 10 with reasons. Qed.

Lemma high_divergence_reason_mentions name active threshold :
  mentions name (high_divergence_reason name active threshold) ∧
  mentions active (high_divergence_reason name active threshold) ∧
  mentions threshold (high_divergence_reason name active threshold).
Proof. unfold high_divergence_reason. repeat split; auto 10 with reasons. Qed.

Lemma fixed2_two_decimals h : two_decimals (fixed2 h).
Proof.
  exists (int_str (h / 100)), (h mod 100 / 10), (h mod 10).
  split; [done|]. split.
  - pose proof (Z.mod_pos_bound h 100 eq_refl).
    assert (0 ≤ (h `mod` 100) `div` 10 < 10)
      by (split; [apply Z.div_pos; lia | apply Z.div_lt_upper_bound; lia]).
    lia.
  - pose proof (Z.mod_pos_bound h 10 eq_refl). lia.
Qed.

Lemma two_decimals_sign s t : two_decimals t → two_decimals (sign_str s +:+ t).
Proof.
  intros (front & d1 & d2 & -> & H1 & H2).
  exists (sign_str s +:+ front), d1, d2. split; [|done].
  symmetry. apply append_assoc.
Qed.

(** A finite float is written with two decimals. *)
Lemma float_format_2f_two_decimals x :
  float_is_finite x = true → two_decimals (float_format_2f x).
Proof.
  unfold float_is_finite, float_format_2f.
  destruct (Prim2SF x) as [s|s| |s m e]; try done; intros _.
  - apply two_decimals_sign. by exists "0", 0, 0.
  - apply two_decimals_sign, fixed2_two_decimals.
Qed.

Lemma format_2f_float v t :
  format_2f v = Ok t → ∃ y, t = float_format_2f y.
Proof.
  destruct v as [|b|z|f|s]; simpl; try done.
  - destruct (float_of_int _) as [y|]; simpl; [|done]. intros [= <-]. by exists y.
  - destruct (float_of_int _) as [y|]; simpl; [|done]. intros [= <-]. by exists y.
  - intros [= <-]. by exists f.
Qed.

(** C8. When the hook returns an action, its reason shows the name of
    the metric that was compared, the value of the metric and the
    threshold, both in the format [.2f], which writes every finite number
    with exactly two decimals; this holds in each of the four action
    branches. *)
Theorem reason_shows_comparison decision_conf metrics action reason :
  choose_belief_action decision_conf metrics = Ok (action, reason) →
  action ≠ VNone →
  ∃ conf b name value threshold t y,
    decision_conf = Some conf ∧
    returns_at decision_conf metrics b (action, reason) ∧
    compares conf metrics b name value threshold ∧
    format_2f threshold = Ok t ∧ t = float_format_2f y ∧
    mentions name reason ∧
    mentions (float_format_2f value) reason ∧
    mentions t reason ∧
    (float_is_finite value = true → two_decimals (float_format_2f value)) ∧
    (float_is_finite y = true → two_decimals t).
Proof.
  intros H Hact.
  destruct (returns_at_complete _ _ _ H) as [b Hb].
  pose proof Hb as Hb'.
  inversion Hb; subst; try done;
    lazymatch goal with
    | Hf : format_2f _ = Ok _ |- _ =>
        destruct (format_2f_float _ _ Hf) as [y Hy]
    end.
  - destruct (correction_reason_mentions (py_str (divergence_metric_type conf))
                (float_format_2f active) t) as (? & ? & ?).
    exists conf, Correction, (py_str (divergence_metric_type conf)), active,
      correction, t, y.
    split_and!; try done; [by constructor | | rewrite Hy];
      apply float_format_2f_two_decimals.
  - destruct (low_confidence_reason_mentions
                (float_format_2f (avg_concept_confidence metrics)) t) as (? & ? & ?).
    exists conf, LowConfidence, "Average concept confidence",
      (avg_concept_confidence metrics), (confidence_threshold conf), t, y.
    split_and!; try done; [by constructor | | rewrite Hy];
      apply float_format_2f_two_decimals.
  - destruct (l2d_reason_mentions (py_str (divergence_metric_type conf))
                (float_format_2f active) t) as (? & ? & ?).
    exists conf, L2D, (py_str (divergence_metric_type conf)), active, l2d, t, y.
    split_and!; try done; [by constructor | | rewrite Hy];
      apply float_format_2f_two_decimals.
  - destruct (high_divergence_reason_mentions (py_str (divergence_metric_type conf))
                (float_format_2f active) t) as (? & ? & ?).
    exists conf, HighDivergence, (py_str (divergence_metric_type conf)), active,
      (div_threshold conf), t, y.
    split_and!; try done; [by constructor | | rewrite Hy];
      apply float_format_2f_two_decimals.
Qed.

Lemma reason_shows_comparison_witness :
  ∃ conf b name value threshold t y,
    Some default_conf = Some conf ∧
    returns_at (Some default_conf) confident_divergent b
      (VStr "CorrectHuman",
       "Belief divergence (belief_divergence) 0.90 exceeds correction threshold 0.45.") ∧
    compares conf confident_divergent b name value threshold ∧
    format_2f threshold = Ok t ∧ t = float_format_2f y ∧
    mentions name
      "Belief divergence (belief_divergence) 0.90 exceeds correction threshold 0.45." ∧
    mentions (float_format_2f value)
      "Belief divergence (belief_divergence) 0.90 exceeds correction threshold 0.45." ∧
    mentions t
      "Belief divergence (belief_divergence) 0.90 exceeds correction threshold 0.45." ∧
    (float_is_finite value = true → two_decimals (float_format_2f value)) ∧
    (float_is_finite y = true → two_decimals t).
Proof.
  apply (reason_shows_comparison (Some default_conf) confident_divergent
           (VStr "CorrectHuman")).
  - vm_compute; reflexivity.
  - discriminate.
Defined.

(** ** The concept layer *)

Module WorldGraphFacts.
Import WorldGraph.

Lemma elem_of_concept_nodes wg entity c :
  c ∈ concept_nodes_of wg entity ↔
  is_concept c = true ∧ edge wg c (EntityNode entity) = Some "describes".
Proof.
  unfold concept_nodes_of, describes. rewrite elem_of_filter, elem_of_dom.
  rewrite andb_true_iff, bool_decide_eq_true. split.
  - by intros [H _].
  - intros [Hc He]. split; [done|]. unfold edge in He.
    destruct (graph wg !! c); [by eexists | done].
Qed.

Lemma find_concept_Some wg entity c :
  find_concept wg entity = Some c → c ∈ concept_nodes_of wg entity.
Proof.
  unfold find_concept. intros H. apply elem_of_elements.
  destruct (elements _) as [|x l]; simplify_eq/=. apply list_elem_of_here.
Qed.

Lemma find_concept_None wg entity :
  find_concept wg entity = None → concept_nodes_of wg entity = ∅.
Proof.
  unfold find_concept. intros H. apply leibniz_equiv, elements_empty_inv.
  by destruct (elements _).
Qed.

Lemma find_concept_unique wg entity c :
  unique_concepts wg → c ∈ concept_nodes_of wg entity →
  find_concept wg entity = Some c.
Proof.
  intros Hu Hc. destruct (find_concept wg entity) as [c'|] eqn:E.
  - f_equal. apply (Hu entity); [by apply find_concept_Some | done].
  - apply find_concept_None in E. set_solver.
Qed.

Lemma fresh_concept_fresh wg : graph wg !! fresh_concept wg = None.
Proof.
  apply not_elem_of_dom. unfold fresh_concept. intros H.
  apply (is_fresh (concept_ids wg)). unfold concept_ids.
  apply elem_of_set_omap. by eexists (ConceptNode _).
Qed.

(** The graph after a concept node [c] was created for [entity]. *)
Lemma edge_insert_fresh wg wg' entity c src dst :
  graph wg !! c = None →
  graph wg' = <[c := {[EntityNode entity := "describes"]}]> (graph wg) →
  edge wg' src dst =
  if decide (src = c)
  then (if decide (dst = EntityNode entity) then Some "describes" else None)
  else edge wg src dst.
Proof.
  intros Hc Hg. unfold edge. rewrite Hg. case_decide as Hsrc.
  - subst src. rewrite lookup_insert_eq. simpl.
    case_decide as Hdst.
    + subst dst. by rewrite lookup_singleton_eq.
    + by rewrite lookup_singleton_ne.
  - by rewrite lookup_insert_ne.
Qed.

Lemma concept_nodes_insert_fresh wg wg' entity c entity' n :
  is_concept c = true →
  graph wg !! c = None →
  graph wg' = <[c := {[EntityNode entity := "describes"]}]> (graph wg) →
  n ∈ concept_nodes_of wg' entity' ↔
  (n = c ∧ entity' = entity) ∨ n ∈ concept_nodes_of wg entity'.
Proof.
  intros Hic Hc Hg. rewrite !elem_of_concept_nodes.
  rewrite (edge_insert_fresh wg wg' entity c n _ Hc Hg).
  case_decide as Hn.
  - subst n. case_decide as He.
    + injection He as ->. split; [intros _; by left|]. by intros _.
    + split; [by intros [_ ?]|]. intros [[_ ->]|[_ H]]; [done|].
      unfold edge in H. by rewrite Hc in H.
  - split; [by right|]. by intros [[? _]|?].
Qed.

Lemma well_formed_empty : well_formed empty_graph.
Proof.
  split_and!.
  - intros entity c1 c2 H. apply elem_of_concept_nodes in H as [_ H].
    unfold edge in H. simpl in H. by rewrite lookup_empty in H.
  - intros id adj H. simpl in H. by rewrite lookup_empty in H.
  - intros entity [v H]. unfold property in H. simpl in H.
    by rewrite lookup_empty in H.
Qed.

Lemma add_node_edge wg name props src dst :
  edge (add_node wg name props) src dst = edge wg src dst.
Proof.
  unfold edge, add_node. simpl.
  destruct (graph wg !! EntityNode name) eqn:E; [done|].
  destruct (decide (src = EntityNode name)) as [->|Hne].
  - rewrite lookup_insert_eq, E. simpl. by rewrite lookup_empty.
  - by rewrite lookup_insert_ne.
Qed.

Lemma add_node_concept_nodes wg name props entity :
  concept_nodes_of (add_node wg name props) entity = concept_nodes_of wg entity.
Proof.
  apply set_eq. intros n. rewrite !elem_of_concept_nodes.
  by rewrite add_node_edge.
Qed.

Lemma well_formed_add_node wg name props :
  props !! "concept_labels" = None →
  well_formed wg → well_formed (add_node wg name props).
Proof.
  intros Hprops (Hu & Hs & Ha). split_and!.
  - intros entity c1 c2. rewrite add_node_concept_nodes. apply Hu.
  - intros id adj H. apply (Hs id). unfold add_node in H. simpl in H.
    destruct (graph wg !! EntityNode name); [done|].
    by rewrite lookup_insert_ne in H.
  - intros entity [v H]. rewrite add_node_concept_nodes. apply Ha.
    exists v. unfold property, add_node in *. simpl in H.
    destruct (decide (entity = name)) as [->|Hne].
    + rewrite lookup_insert_eq in H. simpl in H. by rewrite Hprops in H.
    + by rewrite lookup_insert_ne in H.
Qed.

Lemma annotation_graph wg entity labels confidences :
  graph (add_or_update_concept_annotation wg entity labels confidences).1 =
  match find_concept wg entity with
  | Some _ => graph wg
  | None => <[fresh_concept wg := {[EntityNode entity := "describes"]}]> (graph wg)
  end.
Proof.
  unfold add_or_update_concept_annotation. by destruct (find_concept wg entity).
Qed.

Lemma annotation_node wg entity labels confidences :
  (add_or_update_concept_annotation wg entity labels confidences).2 =
  default (fresh_concept wg) (find_concept wg entity).
Proof.
  unfold add_or_update_concept_annotation. by destruct (find_concept wg entity).
Qed.

Lemma annotation_properties wg entity labels confidences :
  properties (add_or_update_concept_annotation wg entity labels confidences).1 =
  <[entity := <["concept_confidence" := PConfidences confidences]>
                (<["concept_labels" := PLabels labels]>
                   (default ∅ (properties wg !! entity)))]> (properties wg).
Proof.
  unfold add_or_update_concept_annotation. by destruct (find_concept wg entity).
Qed.

Lemma concept_nodes_same_graph wg wg' entity :
  graph wg' = graph wg → concept_nodes_of wg' entity = concept_nodes_of wg entity.
Proof.
  intros H. unfold concept_nodes_of, describes, edge. by rewrite H.
Qed.

(** After the operation the entity has exactly the returned concept
    node. *)
Lemma annotation_concept_nodes wg entity labels confidences :
  unique_concepts wg →
  concept_nodes_of (add_or_update_concept_annotation wg entity labels confidences).1
    entity
  = {[ (add_or_update_concept_annotation wg entity labels confidences).2 ]}.
Proof.
  intros Hu. apply set_eq. intros n. rewrite elem_of_singleton, annotation_node.
  destruct (find_concept wg entity) as [c|] eqn:E; simpl.
  - rewrite (concept_nodes_same_graph wg);
      [|by rewrite annotation_graph, E].
    apply find_concept_Some in E. split; [|by intros ->].
    intros Hn. by apply (Hu entity).
  - rewrite (concept_nodes_insert_fresh wg _ entity (fresh_concept wg) entity n
               eq_refl (fresh_concept_fresh wg));
      [|by rewrite annotation_graph, E].
    apply find_concept_None in E. rewrite E. set_solver.
Qed.

(** The concept nodes and the properties of the other entities, and
    what the graph held already, stay as they are. *)
Lemma annotation_other_nodes wg entity labels confidences other :
  other ≠ entity →
  concept_nodes_of (add_or_update_concept_annotation wg entity labels confidences).1
    other
  = concept_nodes_of wg other.
Proof.
  intros Hne.
  pose proof (annotation_graph wg entity labels confidences) as Hg.
  destruct (find_concept wg entity) as [c|] eqn:E.
  - by apply concept_nodes_same_graph.
  - apply set_eq. intros n.
    rewrite (concept_nodes_insert_fresh wg _ entity (fresh_concept wg) other n
               eq_refl (fresh_concept_fresh wg) Hg).
    split; [|by right]. by intros [[_ ?]|?].
Qed.

Lemma annotation_other_properties wg entity labels confidences other :
  other ≠ entity →
  properties (add_or_update_concept_annotation wg entity labels confidences).1
    !! other
  = properties wg !! other.
Proof.
  intros Hne. rewrite annotation_properties. by rewrite lookup_insert_ne.
Qed.

Lemma annotation_keeps_graph wg entity labels confidences n adj :
  graph wg !! n = Some adj →
  graph (add_or_update_concept_annotation wg entity labels confidences).1 !! n
  = Some adj.
Proof.
  intros H. rewrite annotation_graph.
  destruct (find_concept wg entity); [done|].
  rewrite lookup_insert_ne; [done|]. intros <-.
  by rewrite fresh_concept_fresh in H.
Qed.

Lemma well_formed_annotation wg entity labels confidences :
  well_formed wg →
  well_formed (add_or_update_concept_annotation wg entity labels confidences).1.
Proof.
  intros (Hu & Hs & Ha).
  pose proof (annotation_graph wg entity labels confidences) as Hg.
  assert (annotated_described
            (add_or_update_concept_annotation wg entity labels confidences).1)
    as Ha'.
  { intros e [v H]. destruct (decide (e = entity)) as [->|Hne].
    - exists (add_or_update_concept_annotation wg entity labels confidences).2.
      rewrite annotation_concept_nodes by done. by apply elem_of_singleton.
    - rewrite annotation_other_nodes by done. apply Ha. exists v.
      unfold property in *. by rewrite annotation_other_properties in H. }
  destruct (find_concept wg entity) as [c|] eqn:E.
  - split_and!; [| |done].
    + intros e c1 c2. rewrite !(concept_nodes_same_graph wg _ e Hg). apply Hu.
    + intros id adj. rewrite Hg. apply Hs.
  - split_and!; [| |done].
    + intros e c1 c2.
      rewrite !(concept_nodes_insert_fresh wg _ entity (fresh_concept wg) e _
                  eq_refl (fresh_concept_fresh wg) Hg).
      intros [[-> ->]|H1] [[-> He]|H2]; try done.
      * apply find_concept_None in E. set_solver.
      * subst e. apply find_concept_None in E. set_solver.
      * by apply (Hu e).
    + intros id adj. rewrite Hg.
      destruct (decide (ConceptNode id = fresh_concept wg)) as [->|Hne].
      * rewrite lookup_insert_eq. intros [= <-]. by eexists.
      * rewrite lookup_insert_ne by done. apply Hs.
Qed.

(** Under the invariant an annotated entity has exactly one concept
    node, whose only edge is the "describes" edge to the entity. *)
Lemma well_formed_one_node wg entity :
  well_formed wg → annotated wg entity →
  ∃ c, concept_nodes_of wg entity = {[ c ]} ∧ is_concept c = true ∧
       graph wg !! c = Some {[EntityNode entity := "describes"]}.
Proof.
  intros (Hu & Hs & Ha) Hann. destruct (Ha entity Hann) as [c Hc].
  exists c. pose proof Hc as Hc'.
  apply elem_of_concept_nodes in Hc' as [Hic He]. split_and!; [|done|].
  - apply set_eq. intros n. rewrite elem_of_singleton. split; [|by intros ->].
    intros Hn. by apply (Hu entity).
  - unfold edge in He.
    destruct (graph wg !! c) as [adj|] eqn:Eadj; [simpl in He|done].
    destruct c as [|id]; [done|].
    destruct (Hs id adj Eadj) as [e' ->].
    apply lookup_singleton_Some in He as [[= ->] _]. done.
Qed.

(** Every graph that is built from the empty one has the invariant. *)
Lemma built_well_formed wg : built wg → well_formed wg.
Proof.
  induction 1.
  - apply well_formed_empty.
  - by apply well_formed_add_node.
  - by apply well_formed_annotation.
Qed.

Lemma annotation_property wg entity labels confidences :
  property (add_or_update_concept_annotation wg entity labels confidences).1
    entity "concept_labels" = Some (PLabels labels) ∧
  property (add_or_update_concept_annotation wg entity labels confidences).1
    entity "concept_confidence" = Some (PConfidences confidences).
Proof.
  unfold property. rewrite annotation_properties, lookup_insert_eq. simpl.
  split; [|by rewrite lookup_insert_eq].
  by rewrite lookup_insert_ne, lookup_insert_eq.
Qed.

Lemma annotation_again wg entity labels confidences :
  unique_concepts wg →
  add_or_update_concept_annotation
    (add_or_update_concept_annotation wg entity labels confidences).1
    entity labels confidences
  = add_or_update_concept_annotation wg entity labels confidences.
Proof.
  intros Hu.
  pose proof (annotation_concept_nodes wg entity labels confidences Hu) as Hc.
  pose proof (annotation_properties wg entity labels confidences) as Hp.
  set (r1 := add_or_update_concept_annotation wg entity labels confidences) in *.
  assert (find_concept r1.1 entity = Some r1.2) as Hf.
  { unfold find_concept. by rewrite Hc, elements_singleton. }
  unfold add_or_update_concept_annotation at 1. rewrite Hf, Hp, lookup_insert_eq.
  simpl. rewrite insert_insert_eq. destruct r1 as [[g p] c]. simpl in *.
  f_equal. f_equal. rewrite Hp. f_equal.
  apply map_eq. intros key. rewrite !lookup_insert.
  by repeat case_decide.
Qed.

(** C5. Two annotations of the same entity leave the labels and
    confidences of the second one, return the same concept node, and keep
    the entity with exactly that one concept node, whose only edge is a
    "describes" edge to the entity; the invariant of the concept layer is
    kept, and a second call with the arguments of the first changes
    nothing. Every other entity keeps its concept nodes and its
    properties, nothing that the graph held is changed, and afterwards
    every annotated entity of the graph, the annotated one and the others,
    has exactly one concept node with its single "describes" edge. *)
Theorem annotate_twice wg entity labels1 confidences1 labels2 confidences2 :
  well_formed wg →
  let r1 := add_or_update_concept_annotation wg entity labels1 confidences1 in
  let r2 := add_or_update_concept_annotation r1.1 entity labels2 confidences2 in
  property r2.1 entity "concept_labels" = Some (PLabels labels2) ∧
  property r2.1 entity "concept_confidence" = Some (PConfidences confidences2) ∧
  r2.2 = r1.2 ∧
  concept_nodes_of r1.1 entity = {[ r1.2 ]} ∧
  concept_nodes_of r2.1 entity = {[ r1.2 ]} ∧
  is_concept r1.2 = true ∧
  graph r2.1 !! r1.2 = Some {[EntityNode entity := "describes"]} ∧
  graph r2.1 = graph r1.1 ∧
  well_formed r1.1 ∧ well_formed r2.1 ∧
  (labels1 = labels2 → confidences1 = confidences2 → r2 = r1) ∧
  (∀ other, other ≠ entity →
     concept_nodes_of r1.1 other = concept_nodes_of wg other ∧
     concept_nodes_of r2.1 other = concept_nodes_of wg other ∧
     properties r1.1 !! other = properties wg !! other ∧
     properties r2.1 !! other = properties wg !! other) ∧
  (∀ n adj, graph wg !! n = Some adj →
     graph r1.1 !! n = Some adj ∧ graph r2.1 !! n = Some adj) ∧
  (∀ other, annotated wg other ∨ other = entity →
     annotated r1.1 other ∧ annotated r2.1 other) ∧
  (∀ other, annotated r1.1 other →
     ∃ c, concept_nodes_of r1.1 other = {[ c ]} ∧ is_concept c = true ∧
          graph r1.1 !! c = Some {[EntityNode other := "describes"]}) ∧
  (∀ other, annotated r2.1 other →
     ∃ c, concept_nodes_of r2.1 other = {[ c ]} ∧ is_concept c = true ∧
          graph r2.1 !! c = Some {[EntityNode other := "describes"]}).
Proof.
  intros Hwf r1 r2.
  pose proof (well_formed_annotation wg entity labels1 confidences1 Hwf) as Hwf1.
  fold r1 in Hwf1.
  pose proof (well_formed_annotation r1.1 entity labels2 confidences2 Hwf1) as Hwf2.
  fold r2 in Hwf2.
  pose proof (annotation_concept_nodes wg entity labels1 confidences1 (proj1 Hwf))
    as Hc1. fold r1 in Hc1.
  pose proof (annotation_concept_nodes r1.1 entity labels2 confidences2 (proj1 Hwf1))
    as Hc2. fold r2 in Hc2.
  assert (find_concept r1.1 entity = Some r1.2) as Hf.
  { unfold find_concept. by rewrite Hc1, elements_singleton. }
  assert (r2.2 = r1.2) as Hsame.
  { unfold r2. by rewrite annotation_node, Hf. }
  assert (graph r2.1 = graph r1.1) as Hg.
  { unfold r2. by rewrite annotation_graph, Hf. }
  assert (r1.2 ∈ concept_nodes_of r1.1 entity) as Hin by (rewrite Hc1; set_solver).
  apply elem_of_concept_nodes in Hin as [Hic He].
  destruct (annotation_property wg entity labels1 confidences1) as [Hl1 _].
  fold r1 in Hl1.
  destruct (annotation_property r1.1 entity labels2 confidences2) as [Hl Hconf].
  fold r2 in Hl, Hconf.
  assert (∀ other, other ≠ entity →
            properties r1.1 !! other = properties wg !! other ∧
            properties r2.1 !! other = properties wg !! other) as Hprops.
  { intros other Hne. unfold r2, r1.
    by rewrite !annotation_other_properties by done. }
  split_and!; try done.
  - by rewrite Hc2, Hsame.
  - rewrite Hg. unfold edge in He.
    destruct (graph r1.1 !! r1.2) as [adj|] eqn:Eadj; [simpl in He|done].
    destruct (r1.2) as [|id]; [done|].
    destruct (proj1 (proj2 Hwf1) id adj Eadj) as [e' ->].
    apply lookup_singleton_Some in He as [[= ->] _]. done.
  - intros <- <-. apply annotation_again, Hwf.
  - intros other Hne. destruct (Hprops other Hne) as [Hp1 Hp2].
    split_and!; try done.
    + by apply annotation_other_nodes.
    + unfold r2. rewrite annotation_other_nodes by done.
      by apply annotation_other_nodes.
  - intros n adj Hn.
    assert (graph r1.1 !! n = Some adj) as Hn1 by by apply annotation_keeps_graph.
    split; [done|]. by rewrite Hg.
  - intros other [Hann| ->].
    + destruct (decide (other = entity)) as [->|Hne].
      * split; eexists; [apply Hl1 | apply Hl].
      * destruct (Hprops other Hne) as [Hp1 Hp2].
        unfold annotated, property in *. by rewrite Hp1, Hp2.
    + split; eexists; [apply Hl1 | apply Hl].
  - intros other. by apply well_formed_one_node.
  - intros other. by apply well_formed_one_node.
Qed.

Lemma annotate_twice_witness :
  let r1 := add_or_update_concept_annotation shared_graph "obj" ["cup"] [0.8%float] in
  let r2 := add_or_update_concept_annotation r1.1 "obj" ["cup"] [0.9%float] in
  property r2.1 "obj" "concept_labels" = Some (PLabels ["cup"]) ∧
  property r2.1 "obj" "concept_confidence" = Some (PConfidences [0.9%float]) ∧
  r2.2 = r1.2 ∧
  concept_nodes_of r1.1 "obj" = {[ r1.2 ]} ∧
  concept_nodes_of r2.1 "obj" = {[ r1.2 ]} ∧
  is_concept r1.2 = true ∧
  graph r2.1 !! r1.2 = Some {[EntityNode "obj" := "describes"]} ∧
  graph r2.1 = graph r1.1 ∧
  well_formed r1.1 ∧ well_formed r2.1 ∧
  (["cup"] = ["cup"] → [0.8%float] = [0.9%float] → r2 = r1) ∧
  (∀ other, other ≠ "obj" →
     concept_nodes_of r1.1 other = concept_nodes_of shared_graph other ∧
     concept_nodes_of r2.1 other = concept_nodes_of shared_graph other ∧
     properties r1.1 !! other = properties shared_graph !! other ∧
     properties r2.1 !! other = properties shared_graph !! other) ∧
  (∀ n adj, graph shared_graph !! n = Some adj →
     graph r1.1 !! n = Some adj ∧ graph r2.1 !! n = Some adj) ∧
  (∀ other, annotated shared_graph other ∨ other = "obj" →
     annotated r1.1 other ∧ annotated r2.1 other) ∧
  (∀ other, annotated r1.1 other →
     ∃ c, concept_nodes_of r1.1 other = {[ c ]} ∧ is_concept c = true ∧
          graph r1.1 !! c = Some {[EntityNode other := "describes"]}) ∧
  (∀ other, annotated r2.1 other →
     ∃ c, concept_nodes_of r2.1 other = {[ c ]} ∧ is_concept c = true ∧
          graph r2.1 !! c = Some {[EntityNode other := "describes"]}).
Proof.
  apply (annotate_twice shared_graph "obj" ["cup"] [0.8%float] ["cup"] [0.9%float]).
  apply built_well_formed. unfold shared_graph.
  apply built_add_node; [|reflexivity].
  apply built_annotation. apply built_add_node; [|reflexivity].
  apply built_empty.
Defined.

(** The two objects of [shared_graph] end with a concept node each: the
    table keeps the first node, the object gets the second. *)
Lemma shared_graph_nodes :
  let r := add_or_update_concept_annotation shared_graph "obj" ["cup"] [0.8%float] in
  r.2 = ConceptNode 1 ∧
  edge r.1 (ConceptNode 0) (EntityNode "table") = Some "describes" ∧
  edge r.1 (ConceptNode 1) (EntityNode "obj") = Some "describes" ∧
  edge r.1 (ConceptNode 1) (EntityNode "table") = None ∧
  edge r.1 (ConceptNode 0) (EntityNode "obj") = None.
Proof. vm_compute. by split_and!. Qed.

End WorldGraphFacts.

(** ** The log reader *)

Module VisualizeFacts.
Import Visualize.

Section reader_facts.

Variable json_loads : string → option Json.

(** The loop of the source, run from any position with enough fuel,
    yields what [lines_until_malformed] yields from the lines that are
    left: the fuel of [_iter_json_records] suffices. *)
Lemma read_records_lines fuel f :
  (length (lines f) - pos f < fuel)%nat →
  read_records json_loads fuel f
  = lines_until_malformed json_loads (String.concat "" (lines f))
      (drop (pos f) (lines f)).
Proof.
  revert f. induction fuel as [|fuel IH]; intros [ls p] Hfuel; simpl in *; [lia|].
  unfold next_line. simpl.
  destruct (ls !! p) as [l|] eqn:El.
  - rewrite (drop_S _ _ _ El). simpl.
    pose proof (lookup_lt_Some _ _ _ El).
    destruct (String.eqb (strip l) ""); [apply (IH {| lines := ls; pos := S p |}); simpl; lia|].
    destruct (json_loads (strip l)).
    + f_equal. apply (IH {| lines := ls; pos := S p |}); simpl; lia.
    + unfold json_load, read, seek0. simpl. rewrite drop_0.
      destruct (json_loads (String.concat "" ls)); [done|].
      destruct fuel; [done|]. simpl. unfold next_line. simpl.
      by rewrite lookup_ge_None_2.
  - by rewrite (drop_ge _ _ (proj1 (lookup_ge_None _ _) El)).
Qed.

Lemma iter_json_records_lines paths :
  _iter_json_records json_loads paths
  = flat_map (λ path, lines_until_malformed json_loads (String.concat "" path) path)
      paths.
Proof.
  unfold _iter_json_records. induction paths as [|path paths IH]; [done|].
  cbn [flat_map]. f_equal; [|exact IH].
  rewrite (read_records_lines _ (open path)); simpl; [done|lia].
Qed.

(** After the whole-file retry there is no line left to iterate over. *)
Lemma next_line_after_retry f :
  next_line (json_load json_loads (seek0 f)).2 = None.
Proof.
  unfold json_load, read, seek0, next_line. simpl.
  by rewrite lookup_ge_None_2.
Qed.

(** What the source yields from a file starts what line-by-line skipping
    yields from it. *)
Lemma lines_until_malformed_prefix whole rest :
  lines_until_malformed json_loads whole rest
  `prefix_of` skip_malformed_lines json_loads whole rest.
Proof.
  induction rest as [|l rest IH]; simpl; [done|].
  destruct (String.eqb (strip l) ""); [done|].
  destruct (json_loads (strip l)); [by apply prefix_cons|].
  destruct (json_loads whole); [done|]. apply prefix_nil.
Qed.

(** No records is a failure of [main], never an empty plot. *)
Lemma main_no_records files :
  files ≠ [] → _iter_json_records json_loads files = [] →
  main json_loads files = ValueError (length files).
Proof.
  intros Hf Hr. unfold main. rewrite Hr. by destruct files.
Qed.

Lemma main_plots_records files records :
  main json_loads files = Plotted records →
  records ≠ [] ∧ records = _iter_json_records json_loads files.
Proof.
  unfold main. destruct files; [done|].
  destruct (_iter_json_records _ _); [done|]. by intros [= <-].
Qed.

End reader_facts.

(** C9. The reader does not skip a malformed line and go on: a line
    that is no JSON in a file that is no single document ends the
    reading of the file, since the whole-file parse has left the file at
    its end. Of the log [{"a": 1}], [oops], [{"b": 2}] the reader yields
    the first record only, where skipping the malformed line yields both
    records; the log [oops], [{"b": 2}] yields no record and makes [main]
    fail, though it holds a readable record. *)
Theorem malformed_line_ends_file :
  _iter_json_records loads [broken_log] = [JDict [("a", JInt 1)]] ∧
  spec_iter_json_records loads [broken_log]
  = [JDict [("a", JInt 1)]; JDict [("b", JInt 2)]] ∧
  main loads [broken_head_log] = ValueError 1 ∧
  spec_iter_json_records loads [broken_head_log] = [JDict [("b", JInt 2)]].
Proof. by vm_compute. Qed.

(** A document spread over several lines is read by the whole-file
    parse. *)
Example pretty_log_records :
  _iter_json_records loads [pretty_log]
  = [JDict [("a", JInt 1)]; JDict [("b", JInt 2)]].
Proof. by vm_compute. Qed.

End VisualizeFacts.

(** * Further properties *)

(** ** Comparisons of floats *)

Module FloatFacts.

Lemma SFleb_trans a b c :
  SFleb a b = true → SFleb b c = true → SFleb a c = true.
Proof.
  unfold SFleb, SFcompare.
  destruct a as [sa|sa| |sa ma ea], b as [sb|sb| |sb mb eb],
    c as [sc|sc| |sc mc ec];
    try destruct sa; try destruct sb; try destruct sc; try done;
    change (Pos.compare_cont Eq ?x ?y) with (Pos.compare x y);
    destruct (Z.compare_spec ea eb), (Z.compare_spec eb ec),
      (Z.compare_spec ea ec); try done; try lia;
    destruct (Pos.compare_spec ma mb), (Pos.compare_spec mb mc),
      (Pos.compare_spec ma mc); simpl; try done; lia.
Qed.

Lemma leb_trans (x y z : float) :
  PrimFloat.leb x y = true → PrimFloat.leb y z = true → PrimFloat.leb x z = true.
Proof. rewrite !leb_spec. apply SFleb_trans. Qed.

Lemma leb_nan_r (x y : float) : Prim2SF y = S754_nan → PrimFloat.leb x y = false.
Proof.
  intros H. rewrite leb_spec, H. unfold SFleb, SFcompare.
  by destruct (Prim2SF x).
Qed.

Lemma ltb_nan_l (x y : float) : Prim2SF x = S754_nan → PrimFloat.ltb x y = false.
Proof. intros H. by rewrite ltb_spec, H. Qed.

Lemma float_ge_nan x v : Prim2SF x = S754_nan → float_ge x v ≠ Ok true.
Proof.
  intros H. destruct v as [|b|z|y|s]; simpl; try done.
  - unfold float_compare_int. by rewrite H.
  - unfold float_compare_int. by rewrite H.
  - by rewrite (leb_nan_r _ _ H).
Qed.

Lemma float_lt_nan x v : Prim2SF x = S754_nan → float_lt x v ≠ Ok true.
Proof.
  intros H. destruct v as [|b|z|y|s]; simpl; try done.
  - unfold float_compare_int. by rewrite H.
  - unfold float_compare_int. by rewrite H.
  - by rewrite (ltb_nan_l _ _ H).
Qed.

End FloatFacts.

(** ** More on the decision hook *)

Module BeliefHooksMore.
Import Inputs FloatFacts.

(** X1. With L2D switched on and an L2D threshold that is not above the
    divergence threshold, the call never returns from the high-divergence
    branch: every divergence that reaches the divergence threshold has
    already fired the L2D rule. *)
Theorem l2d_shadows_high_divergence conf metrics l d out :
  truthy (l2d_enabled conf) = true →
  l2d_threshold conf = Ok (VFloat l) →
  div_threshold conf = VFloat d →
  PrimFloat.leb l d = true →
  ¬ returns_at (Some conf) metrics HighDivergence out.
Proof.
  intros Hon Hl Hd Hle H. inversion H; subst.
  rewrite Hl in *. simplify_eq. rewrite Hd in *.
  unfold l2d_guard in *. rewrite Hon in *. simpl in *. simplify_eq.
  lazymatch goal with
  | H1 : PrimFloat.leb l ?a = false, H2 : PrimFloat.leb d ?a = true |- _ =>
      rewrite (leb_trans _ _ _ Hle H2) in H1; discriminate H1
  end.
Qed.

Lemma l2d_shadows_high_divergence_witness :
  ¬ returns_at (Some l2d_conf) confident_warning HighDivergence
      (VStr "AskHuman",
       "Belief divergence (belief_divergence) 0.35 exceeds threshold 0.30.").
Proof.
  apply (l2d_shadows_high_divergence l2d_conf confident_warning
           0.15%float 0.3%float); vm_compute; reflexivity.
Defined.

(** X2. A divergence that is NaN fires no divergence rule, whatever the
    thresholds are: a call that returns does so with the hooks disabled,
    from the low-confidence branch, or with no action. *)
Theorem nan_divergence_fires_no_rule conf metrics active b out :
  get_divergence metrics (divergence_metric_type conf) = Ok active →
  Prim2SF active = S754_nan →
  returns_at (Some conf) metrics b out →
  b = Disabled ∨ b = LowConfidence ∨ b = NoAction.
Proof.
  intros Ha Hnan H. inversion H; subst; auto; exfalso;
    repeat match goal with
    | H' : get_divergence _ _ = Ok _ |- _ => rewrite Ha in H'; simplify_eq
    end.
  - by eapply float_ge_nan.
  - unfold l2d_guard in *. destruct (truthy (l2d_enabled conf)); [|done].
    by eapply float_ge_nan.
  - by eapply float_ge_nan.
Qed.

Lemma nan_divergence_fires_no_rule_witness :
  NoAction = Disabled ∨ NoAction = LowConfidence ∨ NoAction = NoAction.
Proof.
  apply (nan_divergence_fires_no_rule l2d_conf nan_metrics nan NoAction
           (VNone, "steady")); [vm_compute; reflexivity..|].
  apply (ret_no_action l2d_conf nan_metrics nan (VFloat 0.44999999999999996)
           (VFloat 0.15)); vm_compute; reflexivity.
Defined.

(** X3. A base threshold that is [None] or a string makes every call
    with the hooks enabled raise, also when both derived thresholds are
    configured: their defaults are computed before the lookup. The error
    is [TypeError], unless [get_divergence], which runs before, raises:
    then the error is its own. *)
Theorem text_base_threshold_raises conf metrics v :
  truthy (dict_get conf "cbwm_enabled" (VBool true)) = true →
  conf !! "divergence_threshold" = Some v →
  v = VNone ∨ (∃ s, v = VStr s) →
  choose_belief_action (Some conf) metrics
  = match get_divergence metrics (divergence_metric_type conf) with
    | Ok _ => Raise TypeError
    | Raise e => Raise e
    end ∧
  is_ok (choose_belief_action (Some conf) metrics) = false.
Proof.
  intros Hen Hv Hbad. rewrite (choose_not_disabled _ _ Hen).
  unfold choose_enabled.
  destruct (get_divergence _ _) as [active|]; [simpl|done].
  unfold correction_threshold, div_threshold.
  rewrite (dict_get_Some _ _ _ _ Hv).
  by destruct Hbad as [->|[s ->]].
Qed.

Lemma text_base_threshold_raises_witness :
  (choose_belief_action (Some text_base_conf) confident_divergent = Raise TypeError ∧
   is_ok (choose_belief_action (Some text_base_conf) confident_divergent) = false) ∧
  (choose_belief_action (Some text_count_conf) huge_metrics = Raise OverflowError ∧
   is_ok (choose_belief_action (Some text_count_conf) huge_metrics) = false).
Proof.
  split.
  - apply (text_base_threshold_raises text_base_conf confident_divergent
             (VStr "0.3")); [vm_compute; reflexivity..|].
    right. by exists "0.3".
  - apply (text_base_threshold_raises text_count_conf huge_metrics (VStr "0.3"));
      [vm_compute; reflexivity..|].
    right. by exists "0.3".
Defined.

(** X4. While L2D is off its threshold is never looked at: the result is
    the same whatever is stored under [l2d_divergence_threshold], a value
    of the wrong type included. *)
Theorem l2d_threshold_unused_when_off conf metrics v w :
  truthy (l2d_enabled conf) = false →
  choose_belief_action (Some (<["l2d_divergence_threshold" := v]> conf)) metrics
  = choose_belief_action (Some (<["l2d_divergence_threshold" := w]> conf)) metrics.
Proof.
  intros Hoff.
  assert (∀ u key dflt, key ≠ "l2d_divergence_threshold" →
            dict_get (<["l2d_divergence_threshold" := u]> conf) key dflt
            = dict_get conf key dflt) as Hget.
  { intros u key dflt Hne. unfold dict_get. by rewrite lookup_insert_ne. }
  unfold choose_belief_action, choose_enabled, divergence_metric_type,
    correction_threshold, l2d_threshold, div_threshold, confidence_threshold,
    correction_action, low_confidence_action, l2d_action, high_divergence_action.
  unfold l2d_enabled in *.
  rewrite !(Hget v), !(Hget w) by done.
  destruct (negb _); [done|].
  destruct (get_divergence _ _) as [active|]; [simpl|done].
  destruct (mul_float _ 1.5) as [c|]; [simpl|done].
  destruct (mul_float _ 0.5) as [l|]; [simpl|done].
  assert (∀ u dflt, dict_get (<["l2d_divergence_threshold" := u]> conf)
                      "l2d_divergence_threshold" dflt = u) as Hl2d.
  { intros u dflt. unfold dict_get. by rewrite lookup_insert_eq. }
  rewrite !Hl2d, !(Hget v), !(Hget w) by done.
  destruct (float_ge active
              (dict_get conf "correction_divergence_threshold" (VFloat c)))
    as [[]|]; [done| simpl |done].
  destruct (float_lt _ _) as [[]|]; [done| simpl |done].
  unfold l2d_guard. by rewrite Hoff.
Qed.

Lemma l2d_threshold_unused_when_off_witness :
  choose_belief_action
    (Some (<["l2d_divergence_threshold" := VStr "low"]> default_conf))
    confident_warning
  = choose_belief_action
      (Some (<["l2d_divergence_threshold" := VFloat 0.15]> default_conf))
      confident_warning.
Proof.
  apply (l2d_threshold_unused_when_off default_conf confident_warning).
  vm_compute; reflexivity.
Defined.

(** X5. [get_divergence] raises in one case only: [OverflowError], when
    the named metrics hold under the requested name an [int] beyond the
    range of the floats. *)
Theorem get_divergence_raises metrics metric_type e :
  get_divergence metrics metric_type = Raise e →
  e = OverflowError ∧
  ∃ dm name z,
    divergence_metrics metrics = Some dm ∧ metric_type = VStr name ∧
    name ≠ "belief_divergence" ∧
    dm !! name = Some (NInt z) ∧ float_of_int z = Raise OverflowError.
Proof.
  unfold get_divergence, has_metric.
  destruct (eq_str metric_type "belief_divergence") eqn:Eq; [done|].
  destruct (divergence_metrics metrics) as [dm|]; [|done].
  destruct (dict_truthy dm); [|done].
  destruct metric_type as [|b|z|f|name]; simpl; try done.
  destruct (dm !! name) as [[z|f]|] eqn:E; simpl; try done.
  intros Hz.
  assert (e = OverflowError) as ->.
  { unfold float_of_int in Hz. destruct z; try done;
      by destruct (binary_normalize _ _ _ _ _); simplify_eq. }
  split; [done|]. exists dm, name, z. split_and!; try done.
  intros ->. by vm_compute in Eq.
Qed.

Lemma get_divergence_raises_witness :
  OverflowError = OverflowError ∧
  ∃ dm name z,
    divergence_metrics huge_metrics = Some dm ∧ VStr "count" = VStr name ∧
    name ≠ "belief_divergence" ∧
    dm !! name = Some (NInt z) ∧ float_of_int z = Raise OverflowError.
Proof.
  apply (get_divergence_raises huge_metrics (VStr "count") OverflowError).
  vm_compute; reflexivity.
Defined.

(** X6. A confidence that is NaN never fires the low-confidence rule. *)
Theorem nan_confidence_fires_no_rule conf metrics out :
  Prim2SF (avg_concept_confidence metrics) = S754_nan →
  ¬ returns_at (Some conf) metrics LowConfidence out.
Proof.
  intros Hnan H. inversion H; subst. by eapply float_lt_nan.
Qed.

Lemma nan_confidence_fires_no_rule_witness :
  ¬ returns_at (Some default_conf) nan_metrics LowConfidence
      (VStr "AppendObservation",
       "Average concept confidence nan is below threshold 0.50.").
Proof.
  apply (nan_confidence_fires_no_rule default_conf nan_metrics).
  vm_compute; reflexivity.
Defined.

(** X7. The correction rule is monotone in the divergence: with a
    correction threshold that is a float, if a snapshot is corrected then
    so is every snapshot whose active divergence is at least as large. *)
Theorem correction_is_monotone conf metrics metrics' c active active' out :
  correction_threshold conf = Ok (VFloat c) →
  returns_at (Some conf) metrics Correction out →
  get_divergence metrics (divergence_metric_type conf) = Ok active →
  get_divergence metrics' (divergence_metric_type conf) = Ok active' →
  PrimFloat.leb active active' = true →
  returns_at (Some conf) metrics' Correction
    (correction_action conf,
     correction_reason (py_str (divergence_metric_type conf))
       (float_format_2f active') (float_format_2f c)).
Proof.
  intros Hc H Ha Ha' Hle. inversion H; subst.
  lazymatch goal with
  | Hc' : correction_threshold conf = Ok ?x |- _ =>
      rewrite Hc in Hc'; injection Hc' as <-
  end.
  lazymatch goal with
  | Ha0 : get_divergence metrics _ = Ok ?a, Hge : float_ge ?a _ = Ok true |- _ =>
      rewrite Ha in Ha0; injection Ha0 as <-; simpl in Hge; injection Hge as Hge
  end.
  eapply ret_correction; eauto. simpl. f_equal. by eapply leb_trans.
Qed.

Lemma correction_is_monotone_witness :
  returns_at (Some default_conf) confident_divergent Correction
    (VStr "CorrectHuman",
     "Belief divergence (belief_divergence) 0.90 exceeds correction threshold 0.45.").
Proof.
  apply (correction_is_monotone default_conf
           {| avg_concept_confidence := 0.4; belief_divergence := 0.5;
              divergence_metrics := None; note := "" |}
           confident_divergent 0.44999999999999996%float 0.5%float 0.9%float
           (VStr "CorrectHuman",
            "Belief divergence (belief_divergence) 0.50 exceeds correction threshold 0.45.")).
  - vm_compute; reflexivity.
  - apply (ret_correction default_conf _ 0.5%float
             (VFloat 0.44999999999999996) (VFloat 0.15) "0.45");
      vm_compute; reflexivity.
  - vm_compute; reflexivity.
  - vm_compute; reflexivity.
  - vm_compute; reflexivity.
Defined.

End BeliefHooksMore.

(** ** More on the log reader *)

Module ReaderMore.
Import Visualize VisualizeFacts Inputs.

Section reader_more.

Variable json_loads : string → option Json.

#[local] Abbreviation decoded := (Inputs.decoded json_loads).

Lemma decoded_cons l ls :
  decoded (l :: ls) =
  if String.eqb (strip l) "" then decoded ls
  else match json_loads (strip l) with
       | Some v => v :: decoded ls
       | None => decoded ls
       end.
Proof.
  unfold Inputs.decoded. rewrite fmap_cons, filter_cons.
  destruct (String.eqb_spec (strip l) "") as [E|E].
  - by rewrite decide_False by (intros H; by apply H).
  - rewrite decide_True by done. simpl. by destruct (json_loads (strip l)).
Qed.

Lemma lines_until_malformed_app whole pre rest :
  (∀ l, l ∈ pre → strip l ≠ "" → is_Some (json_loads (strip l))) →
  lines_until_malformed json_loads whole (pre ++ rest)
  = decoded pre ++ lines_until_malformed json_loads whole rest.
Proof.
  induction pre as [|l pre IH]; intros Hpre; [done|].
  rewrite decoded_cons. simpl.
  assert (∀ l', l' ∈ pre → strip l' ≠ "" → is_Some (json_loads (strip l')))
    as Hpre' by (intros l' Hl'; apply Hpre; by right).
  destruct (String.eqb_spec (strip l) "") as [E|E]; [by apply IH|].
  destruct (Hpre l (list_elem_of_here _ _) E) as [v ->]. simpl.
  by rewrite IH.
Qed.

Lemma lines_decoded whole path :
  (∀ l, l ∈ path → strip l ≠ "" → is_Some (json_loads (strip l))) →
  lines_until_malformed json_loads whole path = decoded path.
Proof.
  intros H. rewrite <-(app_nil_r path) at 1.
  rewrite lines_until_malformed_app by done. simpl. by rewrite app_nil_r.
Qed.

(** X8. Of files in which every line that is not blank decodes, the
    reader yields the decoded lines, file after file and line after line,
    whatever they decode to; blank lines yield nothing. *)
Theorem jsonl_records paths :
  (∀ path l, path ∈ paths → l ∈ path → strip l ≠ "" →
             is_Some (json_loads (strip l))) →
  _iter_json_records json_loads paths = flat_map decoded paths.
Proof.
  intros H. rewrite iter_json_records_lines.
  induction paths as [|path paths IH]; [done|]. cbn [flat_map].
  rewrite IH by (intros p l Hp; apply H; by right). f_equal.
  rewrite <-(app_nil_r path) at 2.
  rewrite lines_until_malformed_app by (intros l; apply H; by left).
  simpl. by rewrite !app_nil_r.
Qed.

(** X9. At the first line that is not blank and does not decode, the
    reader is done with the file: it has yielded the lines before it, and
    it adds the records of the whole file when the file decodes as one
    document, and nothing otherwise. The lines after it play no part. *)
Theorem first_malformed_line pre bad post :
  (∀ l, l ∈ pre → strip l ≠ "" → is_Some (json_loads (strip l))) →
  strip bad ≠ "" →
  json_loads (strip bad) = None →
  _iter_json_records json_loads [pre ++ bad :: post]
  = decoded pre ++
    match json_loads (String.concat "" (pre ++ bad :: post)) with
    | Some payload => records_of_payload payload
    | None => []
    end.
Proof.
  intros Hpre Hbad Hnone. rewrite iter_json_records_lines. cbn [flat_map].
  rewrite app_nil_r, lines_until_malformed_app by done. f_equal. simpl.
  destruct (String.eqb_spec (strip bad) "") as [E|_]; [done|].
  by rewrite Hnone.
Qed.

End reader_more.

Lemma jsonl_records_witness :
  _iter_json_records loads [clean_log] = flat_map (decoded loads) [clean_log].
Proof.
  apply (jsonl_records loads [clean_log]).
  intros path l Hpath Hl Hne.
  apply list_elem_of_singleton in Hpath as ->.
  unfold clean_log in Hl.
  apply elem_of_cons in Hl as [->|Hl]; [vm_compute; by eexists|].
  apply elem_of_cons in Hl as [->|Hl]; [exfalso; apply Hne; vm_compute; reflexivity|].
  apply list_elem_of_singleton in Hl as ->. vm_compute; by eexists.
Defined.

Lemma first_malformed_line_witness :
  _iter_json_records loads [broken_log]
  = decoded loads [line (object_text "a" "1")] ++
    match loads (String.concat "" broken_log) with
    | Some payload => records_of_payload payload
    | None => []
    end.
Proof.
  apply (first_malformed_line loads
           [line (object_text "a" "1")] (line "oops") [line (object_text "b" "2")]).
  - intros l Hl _. apply list_elem_of_singleton in Hl as ->.
    vm_compute; by eexists.
  - vm_compute. discriminate.
  - vm_compute; reflexivity.
Defined.

(** White space beyond ASCII makes a blank line too: the reader skips it
    and goes on to the lines after it. *)
Lemma unicode_blank_line_skipped :
  strip unicode_blank = "" ∧
  _iter_json_records loads [spaced_log]
  = [JDict [("a", JInt 1)]; JDict [("b", JInt 2)]].
Proof. split; vm_compute; reflexivity. Qed.

End ReaderMore.

(** ** The series of a log *)

Module SeriesFacts.
Import Visualize Series Inputs.

Lemma items_nil_inv members : items members = [] → members = [].
Proof.
  unfold items. destruct members as [|[k v] members]; [done|]. simpl.
  assert (∀ ms d, d ≠ [] → foldl (λ d kv, dict_set d kv.1 kv.2) d ms ≠ []) as H.
  { induction ms as [|[k' v'] ms IH]; intros d Hd; [done|]. simpl. apply IH.
    destruct d as [|[k0 v0] d]; [done|]. simpl. by destruct (String.eqb k0 k'). }
  intros E. by apply H in E.
Qed.

Lemma dict_find_nil key : dict_find [] key = None.
Proof. done. Qed.

Section series_facts.

Variable float_of_str : string → option float.
Variable int_of_str : string → option Z.

#[local] Abbreviation to_float := (to_float float_of_str).
#[local] Abbreviation _extract_metric := (_extract_metric float_of_str).
#[local] Abbreviation _average_concept_confidence :=
  (_average_concept_confidence float_of_str).
#[local] Abbreviation series_row := (series_row float_of_str int_of_str).
#[local] Abbreviation prepare_from := (prepare_from float_of_str int_of_str).
#[local] Abbreviation _prepare_series := (_prepare_series float_of_str int_of_str).

(** A record that is no object stops the row at its first [get]. *)
Lemma series_row_non_dict idx record key :
  is_dict record = false → series_row idx record key = Error AttributeError.
Proof. by destruct record. Qed.

Lemma prepare_from_app idx records1 records2 key :
  prepare_from idx (records1 ++ records2) key =
  s1 ← prepare_from idx records1 key;
  s2 ← prepare_from (idx + length records1) records2 key;
  Value (s1.1.1 ++ s2.1.1, s1.1.2 ++ s2.1.2, s1.2 ++ s2.2).
Proof.
  revert idx. induction records1 as [|r records1 IH]; intros idx; simpl.
  - rewrite Nat.add_0_r. by destruct (prepare_from idx records2 key) as [[[]]|].
  - destruct (series_row idx r key) as [row|]; [simpl|done].
    rewrite IH, <-Nat.add_succ_comm.
    destruct (prepare_from (S idx) records1 key) as [s1|]; [simpl|done].
    by destruct (prepare_from (S (idx + length records1)) records2 key).
Qed.

Lemma prepare_from_lengths idx records key steps confs divs :
  prepare_from idx records key = Value (steps, confs, divs) →
  length steps = length records ∧ length confs = length records ∧
  length divs = length records.
Proof.
  revert idx steps confs divs.
  induction records as [|r records IH]; intros idx steps confs divs; simpl.
  - by intros [= <- <- <-].
  - destruct (series_row idx r key) as [row|]; [simpl|done].
    destruct (prepare_from (S idx) records key) as [[[s c] d]|] eqn:E; [simpl|done].
    intros [= <- <- <-]. destruct (IH _ _ _ _ E) as (H1 & H2 & H3).
    simpl. by rewrite H1, H2, H3.
Qed.

(** X11. The three series that [_prepare_series] returns have one entry
    for every record. *)
Theorem prepare_series_lengths records key steps confs divs :
  _prepare_series records key = Value (steps, confs, divs) →
  length steps = length records ∧ length confs = length records ∧
  length divs = length records.
Proof. apply prepare_from_lengths. Qed.

(** X12. The series of two logs read one after the other are the series
    of the first followed by those of the second, the second counted from
    the length of the first on; an error of the first is the error of the
    whole. *)
Theorem prepare_series_app records1 records2 key :
  _prepare_series (records1 ++ records2) key =
  s1 ← _prepare_series records1 key;
  s2 ← prepare_from (length records1) records2 key;
  Value (s1.1.1 ++ s2.1.1, s1.1.2 ++ s2.1.2, s1.2 ++ s2.2).
Proof. apply (prepare_from_app 0). Qed.

(** X13. A record that is no object (a number, a string, a list, ...)
    makes [_prepare_series] raise [AttributeError] when the records before
    it raise nothing. *)
Theorem non_dict_record_raises before record after key series :
  _prepare_series before key = Value series →
  is_dict record = false →
  _prepare_series (before ++ record :: after) key = Error AttributeError.
Proof.
  intros Hb Hr. unfold Series._prepare_series in *.
  rewrite prepare_from_app, Hb. simpl.
  by rewrite (series_row_non_dict _ _ _ Hr).
Qed.

Lemma get_missing members key :
  dict_find members key = None → get (JDict members) key = Value JNull.
Proof. unfold get. by intros ->. Qed.

Lemma extract_metric_missing members key :
  dict_find members key = None → dict_find members "metrics" = None →
  _extract_metric (JDict members) key = Value None.
Proof.
  intros Hk Hm. unfold Series._extract_metric, numeric_entry, get.
  by rewrite Hk, Hm.
Qed.

(** The row of a record with none of the keys that are read. *)
Lemma series_row_bare idx members key :
  (∀ k, k ∈ keys_read key → dict_find members k = None) →
  series_row idx (JDict members) key = Value (Z.of_nat idx, 1.0%float, 0.0%float).
Proof.
  intros H.
  assert (∀ k, k ∈ keys_read key → get (JDict members) k = Value JNull) as Hget.
  { intros k Hk. apply get_missing, H, Hk. }
  unfold Series.series_row, step_of, Series._average_concept_confidence,
    divergence_fallback.
  repeat first
    [ rewrite Hget by (unfold keys_read; set_solver)
    | rewrite extract_metric_missing by (apply H; unfold keys_read; set_solver)
    | progress simpl ].
  done.
Qed.

Lemma prepare_from_bare idx records key :
  (∀ r, r ∈ records →
        ∃ members, r = JDict members ∧
                   ∀ k, k ∈ keys_read key → dict_find members k = None) →
  prepare_from idx records key
  = Value (Z.of_nat <$> seq idx (length records),
           replicate (length records) 1.0%float,
           replicate (length records) 0.0%float).
Proof.
  revert idx. induction records as [|r records IH]; intros idx H; [done|].
  destruct (H r (list_elem_of_here _ _)) as (members & -> & Hm).
  simpl. rewrite (series_row_bare _ _ _ Hm). simpl.
  by rewrite IH by (intros r' Hr'; apply H; by right).
Qed.

(** X14. Records that hold none of the keys that are read get the
    defaults: their position in the log as the step, the confidence 1.0
    and the divergence 0.0. *)
Theorem prepare_series_defaults records key :
  (∀ r, r ∈ records →
        ∃ members, r = JDict members ∧
                   ∀ k, k ∈ keys_read key → dict_find members k = None) →
  _prepare_series records key
  = Value (Z.of_nat <$> seq 0 (length records),
           replicate (length records) 1.0%float,
           replicate (length records) 0.0%float).
Proof. apply prepare_from_bare. Qed.

(** X15. A step that counts as false (zero, an empty string, [false],
    [null], ...) is taken as missing: without a true [timestep] and
    without an [episode_step], the record gets its position in the log
    as the step. *)
Theorem false_step_counts_as_missing idx members key row :
  truthy_json (default JNull (dict_find members "step")) = false →
  truthy_json (default JNull (dict_find members "timestep")) = false →
  default JNull (dict_find members "episode_step") = JNull →
  series_row idx (JDict members) key = Value row →
  row.1.1 = Z.of_nat idx.
Proof.
  intros H1 H2 H3. unfold Series.series_row, step_of, get.
  set (a := default JNull (dict_find members "step")) in *.
  set (b := default JNull (dict_find members "timestep")) in *.
  set (c := default JNull (dict_find members "episode_step")) in *.
  simpl. rewrite H1. simpl. rewrite H2. simpl. rewrite H3. simpl.
  destruct (Series._average_concept_confidence _ _) as [conf|]; [simpl|done].
  destruct (Series._extract_metric _ _ _) as [[d|]|]; [simpl| simpl |done].
  - by intros [= <-].
  - destruct (divergence_fallback _ _ _) as [d|]; [simpl|done]. by intros [= <-].
Qed.

Lemma float_of_int_raises z e : float_of_int z = Raise e → e = OverflowError.
Proof.
  unfold float_of_int. destruct z; try done;
    by destruct (binary_normalize _ _ _ _ _); intros; simplify_eq.
Qed.

Lemma to_float_number_error v e :
  is_number v = true → to_float v = Error e → e = Builtin OverflowError.
Proof.
  destruct v as [|b|z|f|s|l|d]; simpl; try done; intros _.
  - destruct (float_of_int _) as [x|e'] eqn:E; simpl; [done|].
    intros [= <-]. by rewrite (float_of_int_raises _ _ E).
  - destruct (float_of_int _) as [x|e'] eqn:E; simpl; [done|].
    intros [= <-]. by rewrite (float_of_int_raises _ _ E).
Qed.

Lemma to_float_number_raises v e :
  is_number v = true → to_float v = Error e →
  e = Builtin OverflowError ∧ ∃ z, v = JInt z ∧ float_of_int z = Raise OverflowError.
Proof.
  intros Hv E. pose proof (to_float_number_error v e Hv E) as ->.
  split; [done|]. destruct v as [|b|z|f|s|l|d]; try done.
  - by destruct b.
  - exists z. split; [done|]. simpl in E.
    destruct (float_of_int z) as [x|e'] eqn:Ez; [done|].
    by rewrite (float_of_int_raises _ _ Ez).
Qed.

(** The metric under [metrics], which is looked at when the top level
    has no number under the key. *)
Lemma nested_metric_raises members key e :
  (m ← get (JDict members) "metrics";
   match (if truthy_json m then m else JDict []) with
   | JDict d =>
       match dict_find d key with
       | Some v => if is_number v then x ← to_float v; Value (Some x) else Value None
       | None => Value None
       end
   | _ => Value None
   end) = Error e ↔
  e = Builtin OverflowError ∧
  ∃ z d, float_of_int z = Raise OverflowError ∧
         dict_find members "metrics" = Some (JDict d) ∧
         dict_find d key = Some (JInt z).
Proof.
  unfold get. simpl. split.
  - destruct (dict_find members "metrics") as [m|]; simpl; [|done].
    destruct (truthy_json m); [|done].
    destruct m as [| | | | | |d]; try done.
    destruct (dict_find d key) as [w|] eqn:Ed; [|done].
    destruct (is_number w) eqn:Hw; [|done].
    destruct (to_float w) as [x|e'] eqn:E; simpl; [done|].
    intros [= <-].
    destruct (to_float_number_raises w e' Hw E) as (-> & z & -> & Hz).
    split; [done|]. by exists z, d.
  - intros (-> & z & d & Hz & Hm & Hd). rewrite Hm.
    destruct d as [|p d']; [by vm_compute in Hd|].
    cbn -[dict_find]. rewrite Hd. cbn. by rewrite Hz.
Qed.

(** X16. On a record that is an object, [_extract_metric] raises in one
    case only, and then [OverflowError]: when the entry it converts, the
    one under the key at the top level if that is a number and else the
    one under the key in [metrics], is an [int] beyond the range of the
    floats. An entry that is no number is never converted. *)
Theorem extract_metric_raises members key e :
  _extract_metric (JDict members) key = Error e ↔
  e = Builtin OverflowError ∧
  ∃ z, float_of_int z = Raise OverflowError ∧
       (dict_find members key = Some (JInt z) ∨
        ((∀ v, dict_find members key = Some v → is_number v = false) ∧
         ∃ d, dict_find members "metrics" = Some (JDict d) ∧
              dict_find d key = Some (JInt z))).
Proof.
  unfold Series._extract_metric, numeric_entry.
  destruct (dict_find members key) as [v|] eqn:Ek.
  - destruct (is_number v) eqn:Hv.
    + change ((x ← to_float v; Value (Some x)) = Error e ↔
              e = Builtin OverflowError ∧
              ∃ z, float_of_int z = Raise OverflowError ∧
                   (Some v = Some (JInt z) ∨
                    ((∀ v0, Some v = Some v0 → is_number v0 = false) ∧
                     ∃ d, dict_find members "metrics" = Some (JDict d) ∧
                          dict_find d key = Some (JInt z)))).
      split.
      * destruct (to_float v) as [x|e'] eqn:E; simpl; [done|].
        intros [= <-].
        destruct (to_float_number_raises v e' Hv E) as (-> & z & -> & Hz).
        split; [done|]. exists z. split; [done|]. by left.
      * intros (-> & z & Hz & [[= ->]|[Hno _]]).
        -- simpl. by rewrite Hz.
        -- specialize (Hno v eq_refl). congruence.
    + etransitivity; [apply nested_metric_raises|]. split.
      * intros (-> & z & d & Hz & Hm & Hd). split; [done|]. exists z.
        split; [done|]. right. split; [|by exists d].
        by intros v0 [= <-].
      * intros (-> & z & Hz & [[= ->]|[_ (d & Hm & Hd)]]); [done|].
        split; [done|]. by exists z, d.
  - etransitivity; [apply nested_metric_raises|]. split.
    + intros (-> & z & d & Hz & Hm & Hd). split; [done|]. exists z.
      split; [done|]. right. split; [done|]. by exists d.
    + intros (-> & z & Hz & [?|[_ (d & Hm & Hd)]]); [done|].
      split; [done|]. by exists z, d.
Qed.

(** X17. A divergence that the record holds as a float under the
    requested key is the divergence of its row, whatever the nested
    metrics and the aggregated divergences hold. *)
Theorem top_level_divergence_wins idx members key x row :
  dict_find members key = Some (JFloat x) →
  series_row idx (JDict members) key = Value row →
  row.2 = x.
Proof.
  intros Hk. unfold Series.series_row.
  destruct (step_of _) as [st|]; [simpl|done].
  destruct (match st with JNull => _ | _ => _ end) as [n|]; [simpl|done].
  destruct (Series._average_concept_confidence _ _) as [c|]; [simpl|done].
  unfold Series._extract_metric, numeric_entry. rewrite Hk. simpl.
  by intros [= <-].
Qed.

Lemma add_error acc v e :
  add acc v = Error e → e = Builtin TypeError ∨ e = Builtin OverflowError.
Proof.
  destruct acc as [a|x], v as [|b|z|f|s|l|d]; simpl; try done;
    try (intros [= <-]; by left);
    destruct (float_of_int _) as [y|e'] eqn:E; simpl; try done;
    intros [= <-]; right; by rewrite (float_of_int_raises _ _ E).
Qed.

Lemma add_non_number acc v :
  is_number v = false → add acc v = Error (Builtin TypeError).
Proof. by destruct acc, v. Qed.

Lemma sum_from_non_number acc values v :
  v ∈ values → is_number v = false →
  ∃ e, (e = TypeError ∨ e = OverflowError) ∧
       sum_from acc values = Error (Builtin e).
Proof.
  intros Hin Hv. revert acc.
  induction values as [|w values IH]; intros acc; [by apply elem_of_nil in Hin|].
  simpl. destruct (add acc w) as [acc'|e] eqn:E; simpl.
  - apply elem_of_cons in Hin as [->|Hin]; [|by apply IH].
    by rewrite add_non_number in E.
  - destruct (add_error _ _ _ E) as [->| ->];
      [exists TypeError | exists OverflowError]; auto.
Qed.

Lemma average_of_concepts members concepts :
  dict_find members "concept_confidence" = Some (JDict concepts) →
  concepts ≠ [] →
  _average_concept_confidence (JDict members)
  = total ← sum_from (NInt 0) (items concepts).*2;
    avg ← mean total (length (items concepts));
    Value (Some avg).
Proof.
  intros Hc Hne. unfold Series._average_concept_confidence, get.
  rewrite Hc. destruct concepts; [done|reflexivity].
Qed.

(** X18. Concept confidences that hold a value that is no number make
    [_average_concept_confidence] raise ([TypeError], or [OverflowError]
    when an [int] beyond the floats comes first): there is no fall-back to
    [avg_concept_confidence]. *)
Theorem worded_confidence_raises members concepts v :
  dict_find members "concept_confidence" = Some (JDict concepts) →
  v ∈ (items concepts).*2 →
  is_number v = false →
  ∃ e, (e = TypeError ∨ e = OverflowError) ∧
       _average_concept_confidence (JDict members) = Error (Builtin e).
Proof.
  intros Hc Hin Hv.
  rewrite (average_of_concepts _ _ Hc)
    by (intros ->; by apply elem_of_nil in Hin).
  destruct (sum_from_non_number (NInt 0) _ _ Hin Hv) as (e & He & ->).
  by exists e.
Qed.

Lemma sum_from_ints a zs :
  sum_from (NInt a) (JInt <$> zs) = Value (NInt (a + foldr Z.add 0 zs)).
Proof.
  revert a. induction zs as [|z zs IH]; intros a; simpl.
  - by rewrite Z.add_0_r.
  - rewrite IH. by rewrite Z.add_assoc.
Qed.

(** X19. Of concept confidences that are all [int]s the average is the
    quotient of their exact sum by their number, rounded once: no
    rounding error builds up, and the order of the entries plays no
    part. *)
Theorem int_confidences_average members concepts zs :
  dict_find members "concept_confidence" = Some (JDict concepts) →
  concepts ≠ [] →
  (items concepts).*2 = JInt <$> zs →
  _average_concept_confidence (JDict members)
  = avg ← lift (int_true_div (foldr Z.add 0 zs) (Z.of_nat (length zs)));
    Value (Some avg).
Proof.
  intros Hc Hne Hz. rewrite (average_of_concepts _ _ Hc Hne).
  rewrite Hz, sum_from_ints.
  assert (length (items concepts) = length zs) as ->.
  { by rewrite <-(length_fmap snd), Hz, length_fmap. }
  done.
Qed.

Lemma prepare_from_non_dict idx records key r :
  r ∈ records → is_dict r = false →
  ∃ e, prepare_from idx records key = Error e.
Proof.
  intros Hin Hr. revert idx.
  induction records as [|w records IH]; intros idx; [by apply elem_of_nil in Hin|].
  simpl. destruct (series_row idx w key) as [row|e] eqn:E; simpl; [|by eexists].
  apply elem_of_cons in Hin as [->|Hin].
  - by rewrite series_row_non_dict in E.
  - destruct (IH Hin (S idx)) as [e ->]. by eexists.
Qed.

End series_facts.

Lemma to_float_number f g v :
  is_number v = true → Series.to_float f v = Series.to_float g v.
Proof. by destruct v. Qed.

(** X20. [_extract_metric] never converts text: its result is the same
    whatever [float] makes of strings, so a metric written as a string is
    passed over, while the fall-back to the aggregated divergences does
    convert it. *)
Theorem extract_metric_ignores_text f g record key :
  Series._extract_metric f record key = Series._extract_metric g record key.
Proof.
  unfold Series._extract_metric.
  destruct (numeric_entry record key) as [[v|]|] eqn:E; simpl; [| |done].
  - assert (is_number v = true) as Hv.
    { destruct record as [|b|z|x|s|l|d]; simpl in E; try done.
      - by destruct (is_substring key s).
      - by destruct (existsb _ l).
      - destruct (dict_find d key) as [w|]; [|done].
        destruct (is_number w) eqn:Hw; by simplify_eq. }
    by rewrite (to_float_number f g v Hv).
  - destruct (get record "metrics") as [m|]; [simpl|done].
    destruct (if truthy_json m then m else JDict []) as [| | | | | |d]; try done.
    destruct (dict_find d key) as [w|]; [|done].
    destruct (is_number w) eqn:Hw; [|done].
    by rewrite (to_float_number f g w Hw).
Qed.

(** X21. A line of a log that decodes to something that is no object is
    yielded as a record like any other, and makes [_prepare_series] raise
    on the records of the file. *)
Theorem non_object_line_fails json_loads float_of_str int_of_str path key l v :
  (∀ l', l' ∈ path → strip l' ≠ "" → is_Some (json_loads (strip l'))) →
  l ∈ path → strip l ≠ "" → json_loads (strip l) = Some v →
  is_dict v = false →
  ∃ e, Series._prepare_series float_of_str int_of_str
         (_iter_json_records json_loads [path]) key = Error e.
Proof.
  intros Hall Hl Hne Hv Hd.
  rewrite VisualizeFacts.iter_json_records_lines. cbn [flat_map].
  rewrite app_nil_r, (ReaderMore.lines_decoded _ _ _ Hall).
  apply (prepare_from_non_dict _ _ _ _ _ v); [|done].
  unfold decoded. apply list_elem_of_omap. exists (strip l). split; [|done].
  apply list_elem_of_filter. split; [done|].
  apply list_elem_of_fmap. by exists l.
Qed.

Lemma prepare_series_lengths_witness :
  length [3; 1; 2] = 3%nat ∧ length [0.5; 1; 1]%float = 3%nat ∧
  length [0.25; 0; 0]%float = 3%nat.
Proof.
  apply (prepare_series_lengths float_of_digits int_of_digits
           [full_record; bare_record; zero_step_record] "belief_divergence").
  vm_compute; reflexivity.
Defined.

Lemma non_dict_record_raises_witness :
  Series._prepare_series float_of_digits int_of_digits
    ([bare_record] ++ JInt 7 :: [full_record]) "belief_divergence"
  = Error AttributeError.
Proof.
  apply (non_dict_record_raises float_of_digits int_of_digits
           [bare_record] (JInt 7) [full_record] "belief_divergence"
           ([0], [1%float], [0%float])); vm_compute; reflexivity.
Defined.

Lemma bare_record_keys key k :
  key ≠ "agent" → k ∈ keys_read key →
  dict_find [("agent", JStr "robot")] k = None.
Proof.
  intros Hkey Hk.
  change (dict_find [("agent", JStr "robot")] k)
    with (if String.eqb "agent" k then Some (JStr "robot") else None).
  destruct (String.eqb_spec "agent" k) as [<-|_]; [|done].
  exfalso. unfold keys_read in Hk.
  repeat (apply elem_of_cons in Hk as [Hk|Hk]; [by simplify_eq|]).
  by apply elem_of_nil in Hk.
Qed.

Lemma prepare_series_defaults_witness :
  Series._prepare_series float_of_digits int_of_digits
    [bare_record; bare_record] "kl"
  = Value (Z.of_nat <$> seq 0 2, replicate 2 1.0%float, replicate 2 0.0%float).
Proof.
  apply (prepare_series_defaults float_of_digits int_of_digits
           [bare_record; bare_record] "kl").
  intros r Hr. exists [("agent", JStr "robot")]. split.
  - apply elem_of_cons in Hr as [->|Hr]; [done|].
    by apply list_elem_of_singleton in Hr as ->.
  - intros k. by apply bare_record_keys.
Defined.

Lemma false_step_counts_as_missing_witness : (5, 1.0%float, 0.0%float).1.1 = 5.
Proof.
  apply (false_step_counts_as_missing float_of_digits int_of_digits 5
           [("step", JInt 0)] "kl" (5, 1.0%float, 0.0%float));
    vm_compute; reflexivity.
Defined.

Lemma extract_metric_raises_witness :
  Series._extract_metric float_of_digits (JDict [("kl", JInt (10 ^ 400))]) "kl"
  = Error (Builtin OverflowError) ∧
  Series._extract_metric float_of_digits
    (JDict [("kl", JStr "high"); ("metrics", JDict [("kl", JInt (10 ^ 400))])]) "kl"
  = Error (Builtin OverflowError).
Proof.
  split.
  - apply (extract_metric_raises float_of_digits [("kl", JInt (10 ^ 400))] "kl"
             (Builtin OverflowError)).
    split; [reflexivity|]. exists (10 ^ 400). split; [vm_compute; reflexivity|].
    left. vm_compute; reflexivity.
  - apply (extract_metric_raises float_of_digits
             [("kl", JStr "high"); ("metrics", JDict [("kl", JInt (10 ^ 400))])]
             "kl" (Builtin OverflowError)).
    split; [reflexivity|]. exists (10 ^ 400). split; [vm_compute; reflexivity|].
    right. split.
    + intros v H. vm_compute in H. by injection H as <-.
    + exists [("kl", JInt (10 ^ 400))]. split; vm_compute; reflexivity.
Defined.

Lemma top_level_divergence_wins_witness : (0, 1.0%float, 0.5%float).2 = 0.5%float.
Proof.
  apply (top_level_divergence_wins float_of_digits int_of_digits 0
           [ ("kl", JFloat 0.5); ("metrics", JDict [("kl", JFloat 0.1)]);
             ("divergence", JDict [("kl", JFloat 0.2)]) ]
           "kl" 0.5%float (0, 1.0%float, 0.5%float));
    vm_compute; reflexivity.
Defined.

Lemma worded_confidence_raises_witness :
  ∃ e, (e = TypeError ∨ e = OverflowError) ∧
       Series._average_concept_confidence float_of_digits worded_record
       = Error (Builtin e).
Proof.
  apply (worded_confidence_raises float_of_digits
           [ ("concept_confidence",
              JDict [("cup", JFloat 0.5); ("mug", JStr "high")]);
             ("avg_concept_confidence", JFloat 0.7) ]
           [("cup", JFloat 0.5); ("mug", JStr "high")] (JStr "high")).
  - vm_compute; reflexivity.
  - change (JStr "high" ∈ [JFloat 0.5%float; JStr "high"]).
    apply elem_of_cons. right. apply list_elem_of_here.
  - reflexivity.
Defined.

Lemma int_confidences_average_witness :
  Series._average_concept_confidence float_of_digits full_record
  = Value (Some 0.5%float).
Proof.
  apply (int_confidences_average float_of_digits
           [ ("step", JInt 3);
             ("concept_confidence", JDict [("cup", JInt 1); ("mug", JInt 0)]);
             ("belief_divergence", JStr "0.9");
             ("metrics", JDict [("belief_divergence", JFloat 0.25)]) ]
           [("cup", JInt 1); ("mug", JInt 0)] [1; 0]);
    [vm_compute; reflexivity | done | vm_compute; reflexivity].
Defined.

Lemma non_object_line_fails_witness :
  ∃ e, Series._prepare_series float_of_digits int_of_digits
         (_iter_json_records loads [clean_log]) "belief_divergence" = Error e.
Proof.
  apply (non_object_line_fails loads float_of_digits int_of_digits clean_log
           "belief_divergence" (line "7") (JInt 7)).
  - intros l Hl Hne. unfold clean_log in Hl.
    apply elem_of_cons in Hl as [->|Hl]; [vm_compute; by eexists|].
    apply elem_of_cons in Hl as [->|Hl]; [exfalso; apply Hne; vm_compute; reflexivity|].
    apply list_elem_of_singleton in Hl as ->. vm_compute; by eexists.
  - apply (bool_decide_unpack _). vm_compute; reflexivity.
  - vm_compute. discriminate.
  - vm_compute; reflexivity.
  - reflexivity.
Defined.

End SeriesFacts.
